(** * snap-store-mcp: the text-to-structure parsers of [server.py]

    A shallow embedding of [parse_snap_search] and [parse_snap_info] and of
    the Python [str] primitives they call, followed by the properties of the
    two parsers.

    Conventions of the embedding.
    - A Python [str] is a [string]; a character is a code point below 256.
    - Python operations that can raise ([parts[i]], tuple unpacking) return
      a [pyresult], so that "never raises" is a theorem and not a convention.
    - The [dict] built by [parse_snap_info] is a [gmap string string]; the
      [dict] literals appended by [parse_snap_search] have five fixed keys and
      are the record [package]. *)

From Stdlib Require Import Ascii.
From stdpp Require Import base option list strings gmap.

(** ** Outcomes of Python code *)

Inductive pyexn : Type :=
  | IndexError
  | ValueError.

Inductive pyresult (A : Type) : Type :=
  | Ok (a : A)
  | Raise (e : pyexn).
Arguments Ok {A} a.
Arguments Raise {A} e.

#[global] Instance pyresult_ret : MRet pyresult := fun A a => Ok a.
#[global] Instance pyresult_bind : MBind pyresult := fun A B f m =>
  match m with
  | Ok a => f a
  | Raise e => Raise e
  end.

(** [for x in xs: body], threading the local variables the body assigns. *)
Fixpoint for_each {S X : Type} (body : S -> X -> pyresult S) (st : S) (xs : list X)
  : pyresult S :=
  match xs with
  | [] => Ok st
  | x :: xs' => st' ← body st x; for_each body st' xs'
  end.

(** ** The [str] primitives used by the parsers *)

Module Py.

(** Characters [str.strip()] and [str.split()] treat as whitespace: the code
    points below 256 for which [str.isspace] holds, that is TAB, LF, VT, FF,
    CR, the separators FS, GS, RS, US, the space, NEL and the no-break space. *)
Definition isspace (c : ascii) : bool :=
  match c with
  | "009" | "010" | "011" | "012" | "013"
  | "028" | "029" | "030" | "031"
  | " " | "133" | "160" => true
  | _ => false
  end%char.

Definition newline : ascii := "010"%char.
Definition tab : ascii := "009"%char.

(** [s.lstrip()] *)
Fixpoint lstrip (s : string) : string :=
  match s with
  | EmptyString => EmptyString
  | String c r => if isspace c then lstrip r else s
  end.

(** [s.rstrip()] *)
Fixpoint rstrip (s : string) : string :=
  match s with
  | EmptyString => EmptyString
  | String c r =>
      match rstrip r with
      | EmptyString => if isspace c then EmptyString else String c EmptyString
      | r' => String c r'
      end
  end.

(** [s.strip()] *)
Definition strip (s : string) : string := rstrip (lstrip s).

(** [sep in s], for a one-character [sep] *)
Fixpoint contains (sep : ascii) (s : string) : bool :=
  match s with
  | EmptyString => false
  | String c r => if decide (c = sep) then true else contains sep r
  end.

(** [s.startswith(p)], for a one-character [p] *)
Definition startswith (p : ascii) (s : string) : bool :=
  match s with
  | EmptyString => false
  | String c _ => bool_decide (c = p)
  end.

(** The pieces of [s.split(sep)] for a one-character [sep]: the first piece
    and the others. There is always a first piece. *)
Fixpoint split_pieces (sep : ascii) (s : string) : string * list string :=
  match s with
  | EmptyString => (EmptyString, [])
  | String c r =>
      let '(h, t) := split_pieces sep r in
      if decide (c = sep) then (EmptyString, h :: t) else (String c h, t)
  end.

(** [s.split(sep)] *)
Definition split (sep : ascii) (s : string) : list string :=
  let '(h, t) := split_pieces sep s in h :: t.

(** [s.split(sep, 1)]: cut at the first [sep] only. *)
Fixpoint split1 (sep : ascii) (s : string) : list string :=
  match s with
  | EmptyString => [EmptyString]
  | String c r =>
      if decide (c = sep) then [EmptyString; r]
      else match split1 sep r with
           | h :: t => String c h :: t
           | [] => [s]
           end
  end.

(** [s.split()]: maximal runs of non-whitespace characters. [tok] is the
    run being read. *)
Fixpoint split_ws_from (tok : string) (s : string) : list string :=
  match s with
  | EmptyString => match tok with EmptyString => [] | _ => [tok] end
  | String c r =>
      if isspace c then
        match tok with
        | EmptyString => split_ws_from EmptyString r
        | _ => tok :: split_ws_from EmptyString r
        end
      else split_ws_from (tok +:+ String c EmptyString) r
  end.

Definition split_ws (s : string) : list string := split_ws_from EmptyString s.

(** [sep.join(xs)] *)
Fixpoint join (sep : string) (xs : list string) : string :=
  match xs with
  | [] => EmptyString
  | [x] => x
  | x :: xs' => x +:+ sep +:+ join sep xs'
  end.

(** [xs[i]] for a non-negative [i] *)
Definition index {A : Type} (xs : list A) (i : nat) : pyresult A :=
  match xs !! i with
  | Some x => Ok x
  | None => Raise IndexError
  end.

(** [a, b = xs] *)
Definition unpack2 {A : Type} (xs : list A) : pyresult (A * A) :=
  match xs with
  | [a; b] => Ok (a, b)
  | _ => Raise ValueError
  end.

(** Truth value of a variable that holds [None] or a [str]. *)
Definition truthy (v : option string) : bool :=
  match v with
  | Some (String _ _) => true
  | _ => false
  end.

End Py.

(** String constants with control characters. *)
Definition NL : string := String Py.newline EmptyString.
Definition TAB : string := String Py.tab EmptyString.

(** ** [parse_snap_search] *)

Record package : Type := Package {
  name : string;
  version : string;
  publisher : string;
  notes : string;
  summary : string
}.

(** Body of the loop over [lines[1:]]; the state is the list [packages]. *)
Definition search_body (packages : list package) (line : string)
  : pyresult (list package) :=
  let parts := Py.split_ws line in
  if bool_decide (5 ≤ length parts) then
    p0 ← Py.index parts 0;
    p1 ← Py.index parts 1;
    p2 ← Py.index parts 2;
    p3 ← Py.index parts 3;
    Ok (packages ++ [ {| name := p0; version := p1; publisher := p2; notes := p3;
                         summary := Py.join " " (drop 4 parts) |} ])
  else Ok packages.

Definition parse_snap_search (output : string) : pyresult (list package) :=
  let lines := Py.split Py.newline (Py.strip output) in
  if bool_decide (length lines < 2) then Ok []
  else for_each search_body [] (drop 1 lines).

(** ** [parse_snap_info] *)

(** The local variables of [parse_snap_info] that the loop assigns. *)
Record info_state : Type := InfoState {
  info : gmap string string;
  current_key : option string;
  current_value : list string
}.

(** [if current_key: info[current_key] = '\n'.join(current_value)] *)
Definition save_current (st : info_state) : gmap string string :=
  match current_key st with
  | Some k =>
      if Py.truthy (Some k) then <[k := Py.join NL (current_value st)]> (info st)
      else info st
  | None => info st
  end.

(** Body of the loop over [lines]. *)
Definition info_body (st : info_state) (line : string) : pyresult info_state :=
  if Py.contains ":" line && negb (Py.startswith " " line) then
    let info' := save_current st in
    '(key, value) ← Py.unpack2 (Py.split1 ":" line);
    Ok {| info := info';
          current_key := Some (Py.strip key);
          current_value := [Py.strip value] |}
  else if Py.truthy (current_key st) && Py.startswith " " line then
    Ok {| info := info st;
          current_key := current_key st;
          current_value := current_value st ++ [Py.strip line] |}
  else Ok st.

Definition info_init : info_state :=
  {| info := ∅; current_key := None; current_value := [] |}.

(** The loop over [lines] and the statements after it. *)
Definition parse_info_lines (lines : list string) : pyresult (gmap string string) :=
  st ← for_each info_body info_init lines;
  Ok (save_current st).

Definition parse_snap_info (output : string) : pyresult (gmap string string) :=
  let lines := Py.split Py.newline (Py.strip output) in
  parse_info_lines lines.

(** ** [list_tools] and [call_tool]

    The two handlers are modelled as the functions they are without the
    [async] and the registration. What is outside Python's text is a
    parameter or is left symbolic:
    - [subprocess.run] is the parameter [run], which gives the outcome of
      each command;
    - [json.dumps(x, indent=2)] is not rendered: a [TextContent] holds the
      value [x] whose rendering is its text;
    - the values of [arguments] are strings, as both input schemas say. *)

(** The dict literals of [list_tools]. *)
Record property_schema : Type := PropertySchema {
  property_type : string;
  property_description : string
}.

Record input_schema : Type := InputSchema {
  schema_type : string;
  properties : list (string * property_schema);
  required : list string
}.

Record Tool : Type := MkTool {
  tool_name : string;
  tool_description : string;
  inputSchema : input_schema
}.

Definition search_snaps_tool : Tool :=
  {| tool_name := "search_snaps";
     tool_description := "Search for snap packages in the Snap Store by name, category, or keywords. Returns matching packages even if query doesn't exactly match package name.";
     inputSchema :=
       {| schema_type := "object";
          properties :=
            [ ("query",
               {| property_type := "string";
                  property_description := "Search query - can be package name, category, or keywords (e.g., 'browser', 'video editor', 'python', 'game')" |}) ];
          required := ["query"] |} |}.

Definition snap_info_tool : Tool :=
  {| tool_name := "snap_info";
     tool_description := "Get detailed information about a specific snap package";
     inputSchema :=
       {| schema_type := "object";
          properties :=
            [ ("package_name",
               {| property_type := "string";
                  property_description := "Exact snap package name (e.g., 'firefox')" |}) ];
          required := ["package_name"] |} |}.

Definition list_tools : list Tool := [search_snaps_tool; snap_info_tool].

(** The values that [call_tool] gives to [json.dumps]: the list of
    [parse_snap_search], the dict of [parse_snap_info], an [error_message]
    dict literal with its keys in order. *)
Inductive json_value : Type :=
  | JPackages (packages : list package)
  | JInfo (info_dict : gmap string string)
  | JObject (fields : list (string * string)).

(** [TextContent(type=..., text=json.dumps(value, indent=2))] *)
Record TextContent : Type := MkTextContent {
  content_type : string;
  text : json_value
}.

(** Outcome of [subprocess.run(cmd, capture_output=True, text=True,
    check=True)]: it returns, with the captured standard output; or it
    raises [CalledProcessError], with the captured standard error, which it
    does when the streams were captured and decoded and the exit status is
    not zero; or it raises another exception, of text [message], as when
    the program is not found or a stream cannot be decoded, whatever the
    exit status then. *)
Inductive run_outcome : Type :=
  | Completed (stdout : string)
  | ExitNonZero (stderr : option string)
  | RunFailed (message : string).

(** The exceptions that the [try] block of [call_tool] can raise. *)
Inductive tool_exn : Type :=
  | KeyError (key : string)
  | CalledProcessError (cmd : list string) (stderr : option string)
  | ParserError (e : pyexn)
  | OtherError (message : string).

Inductive attempt (A : Type) : Type :=
  | Returned (a : A)
  | Raised (e : tool_exn).
Arguments Returned {A} a.
Arguments Raised {A} e.

#[global] Instance attempt_ret : MRet attempt := fun A a => Returned a.
#[global] Instance attempt_bind : MBind attempt := fun A B f m =>
  match m with
  | Returned a => f a
  | Raised e => Raised e
  end.

(** [arguments[key]] *)
Definition getitem (arguments : gmap string string) (key : string) : attempt string :=
  match arguments !! key with
  | Some v => Returned v
  | None => Raised (KeyError key)
  end.

(** [subprocess.run(cmd, ...).stdout]; [CalledProcessError.cmd] is [cmd]. *)
Definition subprocess_run (run : list string → run_outcome) (cmd : list string)
  : attempt string :=
  match run cmd with
  | Completed stdout => Returned stdout
  | ExitNonZero stderr => Raised (CalledProcessError cmd stderr)
  | RunFailed message => Raised (OtherError message)
  end.

(** A call of a parser inside the [try] block. *)
Definition parsed {A : Type} (r : pyresult A) : attempt A :=
  match r with
  | Ok a => Returned a
  | Raise e => Raised (ParserError e)
  end.

(** [str(e)] for the exceptions of the parsers, and for a [KeyError], whose
    key Python shows, for a plain word, between single quotes. *)
Definition str_pyexn (e : pyexn) : string :=
  match e with
  | IndexError => "list index out of range"
  | ValueError => "not enough values to unpack (expected 2, got 1)"
  end.

Definition str_key_error (key : string) : string := "'" +:+ key +:+ "'".

(** The [try] block of [call_tool]. An unknown [name] reaches the end of
    the function, which then returns [None]. *)
Definition call_tool_body (run : list string → run_outcome) (name : string)
    (arguments : gmap string string) : attempt (option (list TextContent)) :=
  if decide (name = "search_snaps") then
    query ← getitem arguments "query";
    stdout ← subprocess_run run ["snap"; "search"; query];
    packages ← parsed (parse_snap_search stdout);
    Returned (Some [ {| content_type := "text"; text := JPackages packages |} ])
  else if decide (name = "snap_info") then
    package_name ← getitem arguments "package_name";
    stdout ← subprocess_run run ["snap"; "info"; package_name];
    info_dict ← parsed (parse_snap_info stdout);
    Returned (Some [ {| content_type := "text"; text := JInfo info_dict |} ])
  else Returned None.

(** The [error_message] of the two handlers. *)
Definition command_failed (cmd : list string) (stderr : option string)
  : list (string * string) :=
  [ ("error", "Command failed");
    ("command", Py.join " " cmd);
    ("stderr", match stderr with
               | Some s => if Py.truthy stderr then Py.strip s
                           else "No error details available"
               | None => "No error details available"
               end);
    ("suggestion", "Check if the package name is correct. Try using 'search_snaps' first.") ].

Definition unexpected_error (details : string) : list (string * string) :=
  [ ("error", "Unexpected error");
    ("details", details);
    ("suggestion", "Please report this issue on GitHub") ].

(** [call_tool]: the [try] block and the two [except] clauses, the first
    for [CalledProcessError], the second for every other exception [e],
    with [str(e)] as details. *)
Definition call_tool (run : list string → run_outcome) (name : string)
    (arguments : gmap string string) : option (list TextContent) :=
  match call_tool_body run name arguments with
  | Returned answer => answer
  | Raised (CalledProcessError cmd stderr) =>
      Some [ {| content_type := "text"; text := JObject (command_failed cmd stderr) |} ]
  | Raised (KeyError key) =>
      Some [ {| content_type := "text";
                text := JObject (unexpected_error (str_key_error key)) |} ]
  | Raised (ParserError e) =>
      Some [ {| content_type := "text";
                text := JObject (unexpected_error (str_pyexn e)) |} ]
  | Raised (OtherError message) =>
      Some [ {| content_type := "text";
                text := JObject (unexpected_error message) |} ]
  end.

(** ** [call_tool] with its commands written down

    The [try] block once more, in a monad that keeps, beside the outcome,
    the commands given to [subprocess.run], in the order of the calls. The
    two [except] clauses call no command. *)
Record logged (A : Type) : Type := Logged {
  commands : list (list string);
  outcome : attempt A
}.
Arguments Logged {A} commands outcome.
Arguments commands {A} l.
Arguments outcome {A} l.

#[global] Instance logged_ret : MRet logged := fun A a => Logged [] (Returned a).
#[global] Instance logged_bind : MBind logged := fun A B f m =>
  match outcome m with
  | Returned a => Logged (commands m ++ commands (f a)) (outcome (f a))
  | Raised e => Logged (commands m) (Raised e)
  end.

(** A step that calls no command. *)
Definition silent {A : Type} (m : attempt A) : logged A := Logged [] m.

(** [subprocess.run(cmd, ...)]: the command is written down, whatever comes
    of it. *)
Definition subprocess_run_logged (run : list string → run_outcome) (cmd : list string)
  : logged string :=
  Logged [cmd] (subprocess_run run cmd).

Definition call_tool_body_logged (run : list string → run_outcome) (name : string)
    (arguments : gmap string string) : logged (option (list TextContent)) :=
  if decide (name = "search_snaps") then
    query ← silent (getitem arguments "query");
    stdout ← subprocess_run_logged run ["snap"; "search"; query];
    packages ← silent (parsed (parse_snap_search stdout));
    mret (Some [ {| content_type := "text"; text := JPackages packages |} ])
  else if decide (name = "snap_info") then
    package_name ← silent (getitem arguments "package_name");
    stdout ← subprocess_run_logged run ["snap"; "info"; package_name];
    info_dict ← silent (parsed (parse_snap_info stdout));
    mret (Some [ {| content_type := "text"; text := JInfo info_dict |} ])
  else mret None.

(** ** Sample runs *)

Definition search_example : string :=
  "Name Version Publisher Notes Summary" +:+ NL +:+
  "firefox 120.0 mozilla stable Fast web browser" +:+ NL.

(** The state in the middle of a run, after the line ["summary: A browser"],
    and the state after a line such as [": v"]. *)
Definition summary_open : info_state :=
  {| info := ∅; current_key := Some "summary"; current_value := ["A browser"] |}.
Definition empty_key_open : info_state :=
  {| info := ∅; current_key := Some EmptyString; current_value := ["v"] |}.

(** ** Vocabulary of the statements *)

(** The record [r] is the one a data row gives: its first four tokens, and
    the other tokens joined by single spaces. *)
Definition row_matches (row : string) (r : package) : Prop :=
  let parts := Py.split_ws row in
  parts !! 0 = Some (name r) ∧ parts !! 1 = Some (version r) ∧
  parts !! 2 = Some (publisher r) ∧ parts !! 3 = Some (notes r) ∧
  summary r = Py.join " " (drop 4 parts).

(** The guard of the first branch of the loop of [parse_snap_info]: the line
    begins a new field. *)
Definition opens_field (line : string) : bool :=
  Py.contains ":" line && negb (Py.startswith " " line).

(** Key and first value fragment a new-field line gives: the pieces of
    [line.split(':', 1)], each stripped. *)
Definition field_key (line : string) : string :=
  Py.strip (default EmptyString (Py.split1 ":" line !! 0)).
Definition field_value (line : string) : string :=
  Py.strip (default EmptyString (Py.split1 ":" line !! 1)).

(** State after the second branch of the loop: one more fragment. *)
Definition continued (st : info_state) (line : string) : info_state :=
  {| info := info st;
     current_key := current_key st;
     current_value := current_value st ++ [Py.strip line] |}.

(** Fragments that the lines after a new-field line add to its value: up to
    the next new-field line, the lines that start with a space, stripped. *)
Fixpoint continuations (lines : list string) : list string :=
  match lines with
  | [] => []
  | l :: lines' =>
      if opens_field l then []
      else if Py.startswith " " l then Py.strip l :: continuations lines'
      else continuations lines'
  end.

(** [s] is empty or made of whitespace only. *)
Fixpoint blank (s : string) : bool :=
  match s with
  | EmptyString => true
  | String c r => Py.isspace c && blank r
  end.

(** [s] has a whitespace character. *)
Fixpoint has_space (s : string) : bool :=
  match s with
  | EmptyString => false
  | String c r => Py.isspace c || has_space r
  end.

(** The last character of [s] is a whitespace character. *)
Fixpoint ends_with_whitespace (s : string) : bool :=
  match s with
  | EmptyString => false
  | String c EmptyString => Py.isspace c
  | String _ r => ends_with_whitespace r
  end.

(** The lines with the last one stripped on the right. *)
Fixpoint rstrip_last (lines : list string) : list string :=
  match lines with
  | [] => []
  | [l] => [Py.rstrip l]
  | l :: lines' => l :: rstrip_last lines'
  end.

(** The line starts with a whitespace character of any kind. *)
Definition starts_with_whitespace (line : string) : bool :=
  match line with
  | EmptyString => false
  | String c _ => Py.isspace c
  end.

(** The line has a colon somewhere; the line starts with a space. *)
Definition has_colon (line : string) : Prop := ∃ a b, line = a +:+ ":" +:+ b.
Definition leading_space (line : string) : Prop := ∃ r, line = " " +:+ r.

(** A fragment of a value: a trimmed text without newline. *)
Definition fragment (f : string) : Prop :=
  Py.contains Py.newline f = false ∧
  starts_with_whitespace f = false ∧ ends_with_whitespace f = false.

(** A token: not empty, no whitespace in it. A trimmed text: no whitespace
    at either end. *)
Definition token (t : string) : Prop := t ≠ EmptyString ∧ has_space t = false.
Definition trimmed (s : string) : Prop :=
  starts_with_whitespace s = false ∧ ends_with_whitespace s = false.

(** What the loop of [parse_snap_info] keeps true of the values: the saved
    ones are made of trimmed lines, and the fragments of the open one are
    trimmed lines, at least one when a key is open. *)
Definition values_ok (st : info_state) : Prop :=
  (∀ k v, info st !! k = Some v → Forall trimmed (Py.split Py.newline v)) ∧
  Forall fragment (current_value st) ∧
  (Py.truthy (current_key st) = true → current_value st ≠ []).

(** * Properties *)

(** ** The error monad and the loop *)

Lemma for_each_app {S X : Type} (body : S → X → pyresult S) (xs ys : list X) (st : S) :
  for_each body st (xs ++ ys) = for_each body st xs ≫= λ st', for_each body st' ys.
Proof.
  revert st. induction xs as [|x xs IH]; intros st; simpl; [done|].
  destruct (body st x) as [st'|e]; simpl; [apply IH | done].
Qed.

(** ** Strings *)

Section strings.

Implicit Types (s t : string) (c sep : ascii).

Lemma append_cons c s t : String c s +:+ t = String c (s +:+ t).
Proof. reflexivity. Qed.

Lemma append_empty_l s : EmptyString +:+ s = s.
Proof. reflexivity. Qed.

Lemma append_empty_r s : s +:+ EmptyString = s.
Proof. induction s as [|c s IH]; [done|]. by rewrite append_cons, IH. Qed.

Lemma append_assoc s t u : (s +:+ t) +:+ u = s +:+ t +:+ u.
Proof. induction s as [|c s IH]; [done|]. by rewrite !append_cons, IH. Qed.

Lemma contains_append sep s t :
  Py.contains sep (s +:+ t) = Py.contains sep s || Py.contains sep t.
Proof.
  induction s as [|c s IH]; [done|]. rewrite append_cons. simpl.
  by destruct (decide (c = sep)).
Qed.

Lemma contains_cut sep s :
  Py.contains sep s = true →
  ∃ a b, s = a +:+ String sep b ∧ Py.contains sep a = false.
Proof.
  induction s as [|c s IH]; simpl; [done|].
  destruct (decide (c = sep)) as [->|Hne]; intros H.
  - by exists EmptyString, s.
  - destruct (IH H) as (a & b & -> & Ha). exists (String c a), b.
    split; [done|]. simpl. by destruct (decide (c = sep)).
Qed.

Lemma split1_cut sep a b :
  Py.contains sep a = false → Py.split1 sep (a +:+ String sep b) = [a; b].
Proof.
  induction a as [|c a IH]; simpl.
  - intros _. by destruct (decide (sep = sep)).
  - destruct (decide (c = sep)); [done|]. intros Ha. by rewrite (IH Ha).
Qed.

Lemma split1_no_sep sep s :
  Py.contains sep s = false → Py.split1 sep s = [s].
Proof.
  induction s as [|c s IH]; simpl; [done|].
  destruct (decide (c = sep)); [done|]. intros Hs. by rewrite (IH Hs).
Qed.

Lemma split_no_sep sep s :
  Py.contains sep s = false → Py.split sep s = [s].
Proof.
  unfold Py.split. induction s as [|c s IH]; simpl; [done|].
  destruct (decide (c = sep)); [done|]. intros Hs. specialize (IH Hs).
  destruct (Py.split_pieces sep s) as [h t]. by injection IH as -> ->.
Qed.

Lemma blank_contains sep s :
  Py.isspace sep = false → blank s = true → Py.contains sep s = false.
Proof.
  intros Hsep. induction s as [|c s IH]; simpl; [done|].
  intros [Hc Hs]%andb_true_iff. destruct (decide (c = sep)) as [->|]; [congruence|auto].
Qed.

Lemma lstrip_cut s : ∃ l, s = l +:+ Py.lstrip s ∧ blank l = true.
Proof.
  induction s as [|c s (l & Hl & Hb)]; simpl; [by exists EmptyString|].
  destruct (Py.isspace c) eqn:Hc.
  - exists (String c l). rewrite append_cons, <- Hl. simpl. by rewrite Hc, Hb.
  - by exists EmptyString.
Qed.

Lemma rstrip_cut s : ∃ r, s = Py.rstrip s +:+ r ∧ blank r = true.
Proof.
  induction s as [|c s (r & Hr & Hb)]; simpl; [by exists EmptyString|].
  destruct (Py.rstrip s) as [|c' s'] eqn:E.
  - rewrite append_empty_l in Hr. subst r.
    destruct (Py.isspace c) eqn:Hc.
    + exists (String c s). simpl. by rewrite Hc, Hb.
    + by exists s.
  - exists r. by rewrite append_cons, <- Hr.
Qed.

Lemma strip_cut s :
  ∃ l r, s = l +:+ Py.strip s +:+ r ∧ blank l = true ∧ blank r = true.
Proof.
  destruct (lstrip_cut s) as (l & Hl & Hbl).
  destruct (rstrip_cut (Py.lstrip s)) as (r & Hr & Hbr).
  exists l, r. unfold Py.strip. by rewrite <- Hr.
Qed.

(** [strip] leaves no whitespace at either end. *)
Lemma lstrip_start s : starts_with_whitespace (Py.lstrip s) = false.
Proof.
  induction s as [|c s IH]; simpl; [done|].
  destruct (Py.isspace c) eqn:Hc; [done|]. simpl. by rewrite Hc.
Qed.

Lemma rstrip_end s : ends_with_whitespace (Py.rstrip s) = false.
Proof.
  induction s as [|c s IH]; simpl; [done|].
  destruct (Py.rstrip s) as [|c' s'] eqn:E.
  - destruct (Py.isspace c) eqn:Hc; simpl; [done | by rewrite Hc].
  - exact IH.
Qed.

Lemma rstrip_start s :
  starts_with_whitespace s = false → starts_with_whitespace (Py.rstrip s) = false.
Proof.
  destruct s as [|c s]; simpl; [done|]. intros Hc.
  destruct (Py.rstrip s); simpl; [by rewrite Hc | done].
Qed.

Lemma strip_ends s :
  starts_with_whitespace (Py.strip s) = false ∧
  ends_with_whitespace (Py.strip s) = false.
Proof.
  split; [apply rstrip_start, lstrip_start | apply rstrip_end].
Qed.

(** [split] and [join] are inverse of each other. *)
Lemma join_split sep s : Py.join (String sep EmptyString) (Py.split sep s) = s.
Proof.
  unfold Py.split. induction s as [|c s IH]; simpl; [done|].
  destruct (Py.split_pieces sep s) as [h t].
  destruct (decide (c = sep)) as [->|Hne].
  - change (String sep (Py.join (String sep EmptyString) (h :: t)) = String sep s).
    by rewrite IH.
  - destruct t as [|y ys]; simpl in *; [by rewrite IH|].
    by rewrite <- IH.
Qed.

Lemma split_pieces_append sep a b :
  Py.contains sep a = false →
  Py.split_pieces sep (a +:+ String sep b) = (a, Py.split sep b).
Proof.
  unfold Py.split. induction a as [|c a IH]; simpl.
  - intros _. destruct (Py.split_pieces sep b) as [h t].
    by destruct (decide (sep = sep)).
  - destruct (decide (c = sep)); [done|]. intros Ha. by rewrite (IH Ha).
Qed.

Lemma split_join sep x xs :
  Forall (λ l, Py.contains sep l = false) (x :: xs) →
  Py.split sep (Py.join (String sep EmptyString) (x :: xs)) = x :: xs.
Proof.
  revert x. induction xs as [|y ys IH]; intros x Hall.
  - simpl. apply split_no_sep. by inversion Hall.
  - inversion Hall as [|?? Hx Hrest]; subst.
    change (Py.join (String sep EmptyString) (x :: y :: ys))
      with (x +:+ String sep (Py.join (String sep EmptyString) (y :: ys))).
    unfold Py.split at 1. rewrite (split_pieces_append _ _ _ Hx).
    by rewrite (IH y Hrest).
Qed.

Lemma split_sep_free sep s :
  Forall (λ l, Py.contains sep l = false) (Py.split sep s).
Proof.
  unfold Py.split. induction s as [|c s IH]; simpl; [by repeat constructor|].
  destruct (Py.split_pieces sep s) as [h t].
  destruct (decide (c = sep)) as [->|Hne]; [by constructor|].
  inversion IH as [|?? Hh Ht]; subst. constructor; [|done].
  simpl. by destruct (decide (c = sep)).
Qed.

(** The lines of a trimmed text: joined by newlines they give the text back,
    none holds a newline, and the first one does not start with whitespace. *)
Lemma trimmed_lines s :
  Py.join (String Py.newline EmptyString) (Py.split Py.newline (Py.strip s))
  = Py.strip s ∧
  Forall (λ l, Py.contains Py.newline l = false) (Py.split Py.newline (Py.strip s)) ∧
  ∀ h rest, Py.split Py.newline (Py.strip s) = h :: rest →
            starts_with_whitespace h = false.
Proof.
  split; [apply join_split|]. split; [apply split_sep_free|].
  intros h rest Hlines. pose proof (join_split Py.newline (Py.strip s)) as Hjoin.
  pose proof (proj1 (strip_ends s)) as Hstart.
  rewrite Hlines in Hjoin. rewrite <- Hjoin in Hstart.
  destruct h as [|c h]; [done|]. by destruct rest.
Qed.

(** The tokens of [split_ws] are not empty and hold no whitespace. *)
Lemma has_space_append s t : has_space (s +:+ t) = has_space s || has_space t.
Proof.
  induction s as [|c s IH]; [done|]. rewrite append_cons. simpl.
  by rewrite IH, orb_assoc.
Qed.

Lemma split_ws_from_tokens tok s :
  has_space tok = false →
  Forall (λ t, t ≠ EmptyString ∧ has_space t = false) (Py.split_ws_from tok s).
Proof.
  revert tok. induction s as [|c s IH]; intros tok Htok; simpl.
  - destruct tok; by repeat constructor.
  - destruct (Py.isspace c) eqn:Hc.
    + destruct tok; [by apply IH|]. constructor; [done | by apply IH].
    + apply IH. rewrite has_space_append. simpl. by rewrite Htok, Hc.
Qed.

Lemma split_ws_tokens s :
  Forall (λ t, t ≠ EmptyString ∧ has_space t = false) (Py.split_ws s).
Proof. by apply split_ws_from_tokens. Qed.

(** Stripping a text made of lines. *)
Lemma blank_append s t : blank (s +:+ t) = blank s && blank t.
Proof.
  induction s as [|c s IH]; [done|]. rewrite append_cons. simpl.
  by rewrite IH, andb_assoc.
Qed.

Lemma lstrip_append s t :
  blank s = false → Py.lstrip (s +:+ t) = Py.lstrip s +:+ t.
Proof.
  induction s as [|c s IH]; simpl; [done|].
  destruct (Py.isspace c) eqn:Hc; simpl; [exact IH | done].
Qed.

Lemma blank_lstrip s : blank (Py.lstrip s) = blank s.
Proof.
  induction s as [|c s IH]; simpl; [done|].
  destruct (Py.isspace c) eqn:Hc; simpl; [done | by rewrite Hc].
Qed.

Lemma rstrip_blank s : blank s = true → Py.rstrip s = EmptyString.
Proof.
  induction s as [|c s IH]; simpl; [done|].
  intros [Hc Hs]%andb_true_iff. rewrite (IH Hs). simpl. by rewrite Hc.
Qed.

Lemma strip_blank s : blank s = true → Py.strip s = EmptyString.
Proof.
  intros Hs. unfold Py.strip. apply rstrip_blank. by rewrite blank_lstrip.
Qed.

Lemma rstrip_nonblank s : blank s = false → Py.rstrip s ≠ EmptyString.
Proof.
  induction s as [|c s IH]; simpl; [done|].
  destruct (Py.rstrip s) eqn:E; [|done].
  destruct (Py.isspace c); [|done]. simpl. intros Hs _. by apply IH.
Qed.

Lemma rstrip_append s t :
  blank t = false → Py.rstrip (s +:+ t) = s +:+ Py.rstrip t.
Proof.
  intros Ht. induction s as [|c s IH]; [done|].
  rewrite !append_cons. simpl. rewrite IH.
  destruct (s +:+ Py.rstrip t) eqn:E; [|done].
  destruct s; [|done]. by apply rstrip_nonblank in Ht.
Qed.

Lemma rstrip_append_blank s t :
  blank t = true → Py.rstrip (s +:+ t) = Py.rstrip s.
Proof.
  intros Ht. induction s as [|c s IH]; [by apply rstrip_blank|].
  rewrite append_cons. simpl. by rewrite IH.
Qed.

Lemma contains_lstrip sep s :
  Py.contains sep s = false → Py.contains sep (Py.lstrip s) = false.
Proof.
  destruct (lstrip_cut s) as (l & Hl & _). rewrite Hl at 1.
  rewrite contains_append. by intros [_ ?]%orb_false_iff.
Qed.

Lemma contains_rstrip sep s :
  Py.contains sep s = false → Py.contains sep (Py.rstrip s) = false.
Proof.
  destruct (rstrip_cut s) as (r & Hr & _). rewrite Hr at 1.
  rewrite contains_append. by intros [? _]%orb_false_iff.
Qed.

Lemma split_ws_from_blank tok s :
  blank s = true →
  Py.split_ws_from tok s = match tok with EmptyString => [] | _ => [tok] end.
Proof.
  revert tok. induction s as [|c s IH]; intros tok; simpl; [done|].
  intros [-> Hs]%andb_true_iff. destruct tok; by rewrite (IH _ Hs).
Qed.

Lemma split_ws_from_append_blank tok s t :
  blank t = true → Py.split_ws_from tok (s +:+ t) = Py.split_ws_from tok s.
Proof.
  intros Ht. revert tok. induction s as [|c s IH]; intros tok.
  - rewrite append_empty_l. by apply split_ws_from_blank.
  - rewrite append_cons. simpl. destruct (Py.isspace c); [|by rewrite IH].
    destruct tok; by rewrite IH.
Qed.

Lemma split_ws_rstrip s : Py.split_ws (Py.rstrip s) = Py.split_ws s.
Proof.
  destruct (rstrip_cut s) as (r & Hr & Hb). rewrite Hr at 2.
  unfold Py.split_ws. by rewrite split_ws_from_append_blank.
Qed.

Lemma split_ws_blank s : blank s = true → Py.split_ws s = [].
Proof. apply split_ws_from_blank. Qed.

(** The tokens do not depend on what whitespace separates them. *)
Lemma split_ws_from_nospace tok t s :
  has_space t = false →
  Py.split_ws_from tok (t +:+ s) = Py.split_ws_from (tok +:+ t) s.
Proof.
  revert tok. induction t as [|c t IH]; intros tok.
  - by rewrite append_empty_r.
  - simpl. intros [Hc Ht]%orb_false_iff. rewrite Hc, (IH _ Ht).
    by rewrite append_assoc.
Qed.

Lemma split_ws_lead gap s :
  blank gap = true → Py.split_ws (gap +:+ s) = Py.split_ws s.
Proof.
  unfold Py.split_ws. induction gap as [|c gap IH]; simpl; [done|].
  intros [-> Hgap]%andb_true_iff. by apply IH.
Qed.

Lemma split_ws_gap tok gap s :
  tok ≠ EmptyString → has_space tok = false →
  gap ≠ EmptyString → blank gap = true →
  Py.split_ws (tok +:+ gap +:+ s) = tok :: Py.split_ws s.
Proof.
  intros Htok Hs Hgap Hb. unfold Py.split_ws.
  rewrite split_ws_from_nospace by done. rewrite append_empty_l.
  destruct gap as [|c gap]; [done|]. simpl in *.
  apply andb_true_iff in Hb as [-> Hb].
  destruct tok; [done|]. f_equal. by apply split_ws_lead.
Qed.

Lemma split_ws_last tok trail :
  tok ≠ EmptyString → has_space tok = false → blank trail = true →
  Py.split_ws (tok +:+ trail) = [tok].
Proof.
  intros Htok Hs Hb. unfold Py.split_ws.
  rewrite split_ws_from_nospace by done. rewrite append_empty_l.
  rewrite split_ws_from_blank by done. by destruct tok.
Qed.

Lemma join_cons (d : string) x y ys :
  Py.join d (x :: y :: ys) = x +:+ d +:+ Py.join d (y :: ys).
Proof. reflexivity. Qed.

Lemma blank_join_nonblank (d : string) x xs :
  blank x = false → blank (Py.join d (x :: xs)) = false.
Proof.
  intros Hx. destruct xs as [|y ys]; [done|].
  by rewrite join_cons, blank_append, Hx.
Qed.

Lemma lstrip_join (d : string) x xs :
  blank x = false → Py.lstrip (Py.join d (x :: xs)) = Py.join d (Py.lstrip x :: xs).
Proof.
  intros Hx. destruct xs as [|y ys]; [done|].
  by rewrite !join_cons, lstrip_append.
Qed.

Lemma rstrip_join (d : string) xs :
  Forall (λ x, blank x = false) xs →
  Py.rstrip (Py.join d xs) = Py.join d (rstrip_last xs).
Proof.
  induction 1 as [|x xs Hx Hxs IH]; [done|].
  destruct xs as [|y ys]; [done|].
  change (rstrip_last (x :: y :: ys)) with (x :: rstrip_last (y :: ys)).
  assert (Hne : ∃ z zs, rstrip_last (y :: ys) = z :: zs)
    by (destruct ys; simpl; eauto).
  destruct Hne as (z & zs & Hz). rewrite Hz in *.
  rewrite !join_cons, <- IH, !rstrip_append; [done|..].
  - apply blank_join_nonblank. by inversion Hxs.
  - rewrite blank_append. apply andb_false_iff. right.
    apply blank_join_nonblank. by inversion Hxs.
Qed.

End strings.

(** ** [parse_snap_search] *)

Section search.

Implicit Types (packages records : list package) (line row : string).

(** The body only ever appends to [packages]. *)
Lemma search_body_appends packages line :
  search_body packages line = search_body [] line ≫= λ r, Ok (packages ++ r).
Proof.
  unfold search_body. case_bool_decide; [|simpl; by rewrite app_nil_r].
  destruct (Py.index _ 0); simpl; [|done].
  destruct (Py.index _ 1); simpl; [|done].
  destruct (Py.index _ 2); simpl; [|done].
  destruct (Py.index _ 3); simpl; done.
Qed.

Lemma search_body_short packages line :
  length (Py.split_ws line) < 5 → search_body packages line = Ok packages.
Proof. intros ?. unfold search_body. case_bool_decide; [lia | done]. Qed.

Lemma search_body_long packages line :
  5 ≤ length (Py.split_ws line) →
  ∃ r, search_body packages line = Ok (packages ++ [r]) ∧ row_matches line r.
Proof.
  intros Hlen. unfold search_body, row_matches. case_bool_decide; [|lia].
  destruct (Py.split_ws line) as [|p0 [|p1 [|p2 [|p3 [|p4 rest]]]]];
    simpl in Hlen; try lia.
  eexists; split; [reflexivity|]. simpl. done.
Qed.

Lemma search_body_total packages line :
  ∃ r, search_body packages line = Ok (packages ++ r).
Proof.
  destruct (decide (5 ≤ length (Py.split_ws line))) as [Hlen|Hlen].
  - destruct (search_body_long packages line Hlen) as (r & -> & _). by exists [r].
  - exists []. rewrite app_nil_r. apply search_body_short. lia.
Qed.

Lemma search_loop_total rows packages :
  ∃ r, for_each search_body packages rows = Ok (packages ++ r).
Proof.
  revert packages. induction rows as [|row rows IH]; intros packages; simpl.
  - exists []. by rewrite app_nil_r.
  - destruct (search_body_total packages row) as [r1 ->]. simpl.
    destruct (IH (packages ++ r1)) as [r2 ->].
    exists (r1 ++ r2). by rewrite app_assoc.
Qed.

Lemma search_loop_appends rows packages :
  for_each search_body packages rows
  = for_each search_body [] rows ≫= λ r, Ok (packages ++ r).
Proof.
  revert packages. induction rows as [|row rows IH]; intros packages; simpl.
  - by rewrite app_nil_r.
  - destruct (search_body_total packages row) as [r1 H1].
    rewrite search_body_appends in H1.
    destruct (search_body [] row) as [r1'|] eqn:E; simpl in H1; [|done].
    rewrite search_body_appends, E. simpl.
    rewrite (IH (packages ++ r1')), (IH r1').
    destruct (for_each search_body [] rows); simpl; [|done].
    by rewrite app_assoc.
Qed.

Lemma search_loop_long rows packages :
  Forall (λ row, 5 ≤ length (Py.split_ws row)) rows →
  ∃ records, for_each search_body packages rows = Ok (packages ++ records)
             ∧ Forall2 row_matches rows records.
Proof.
  intros Hrows. revert packages.
  induction Hrows as [|row rows Hrow _ IH]; intros packages; simpl.
  - exists []. by rewrite app_nil_r.
  - destruct (search_body_long packages row Hrow) as (r & -> & Hr). simpl.
    destruct (IH (packages ++ [r])) as (records & -> & Hrec).
    exists (r :: records). split; [by rewrite <- app_assoc | by constructor].
Qed.

Lemma parse_snap_search_lines output header rows :
  Py.split Py.newline (Py.strip output) = header :: rows →
  parse_snap_search output = for_each search_body [] rows.
Proof.
  intros Hlines. unfold parse_snap_search. rewrite Hlines. simpl.
  case_bool_decide as Hlen; [|done].
  destruct rows; [done | simpl in Hlen; lia].
Qed.

End search.

(** ** [parse_snap_info] *)

Section info.

Lemma contains_has_colon (line : string) :
  Py.contains ":" line = true ↔ has_colon line.
Proof.
  split.
  - intros (a & b & -> & _)%contains_cut. by exists a, b.
  - intros (a & b & ->). rewrite contains_append. apply orb_true_iff. by right.
Qed.

Lemma startswith_leading_space (line : string) :
  Py.startswith " " line = true ↔ leading_space line.
Proof.
  split.
  - destruct line as [|c r]; simpl; [done|].
    intros ->%bool_decide_eq_true. by exists r.
  - by intros (r & ->).
Qed.

Lemma opens_field_iff (line : string) :
  opens_field line = true ↔ has_colon line ∧ ¬ leading_space line.
Proof.
  unfold opens_field.
  rewrite andb_true_iff, negb_true_iff, contains_has_colon.
  rewrite <- startswith_leading_space.
  destruct (Py.startswith " " line); intuition congruence.
Qed.

Implicit Types (st : info_state) (line key value : string) (lines : list string).

Lemma truthy_Some k : Py.truthy (Some k) = true ↔ k ≠ EmptyString.
Proof. destruct k; simpl; split; congruence. Qed.

Lemma save_current_open st k :
  current_key st = Some k → k ≠ EmptyString →
  save_current st = <[k := Py.join NL (current_value st)]> (info st).
Proof.
  intros Hk Hne. unfold save_current. rewrite Hk.
  apply truthy_Some in Hne. by rewrite Hne.
Qed.

Lemma save_current_closed st :
  Py.truthy (current_key st) = false → save_current st = info st.
Proof.
  unfold save_current. destruct (current_key st) as [k|]; [|done]. by intros ->.
Qed.

Lemma opens_field_cut line :
  opens_field line = true →
  ∃ key value, line = key +:+ ":" +:+ value ∧ Py.contains ":" key = false.
Proof.
  unfold opens_field. intros [Hc _]%andb_true_iff. by apply contains_cut.
Qed.

Lemma field_key_cut key value :
  Py.contains ":" key = false → field_key (key +:+ ":" +:+ value) = Py.strip key.
Proof.
  intros H. unfold field_key.
  change (key +:+ ":" +:+ value) with (key +:+ String ":" value).
  by rewrite (split1_cut _ _ _ H).
Qed.

Lemma field_value_cut key value :
  Py.contains ":" key = false → field_value (key +:+ ":" +:+ value) = Py.strip value.
Proof.
  intros H. unfold field_value.
  change (key +:+ ":" +:+ value) with (key +:+ String ":" value).
  by rewrite (split1_cut _ _ _ H).
Qed.

(** The three branches of the loop body. *)
Lemma info_body_field st line :
  opens_field line = true →
  info_body st line = Ok {| info := save_current st;
                            current_key := Some (field_key line);
                            current_value := [field_value line] |}.
Proof.
  intros Hf. destruct (opens_field_cut line Hf) as (key & value & -> & Hkey).
  unfold info_body. fold (opens_field (key +:+ ":" +:+ value)). rewrite Hf.
  rewrite field_key_cut, field_value_cut by done.
  change (key +:+ ":" +:+ value) with (key +:+ String ":" value).
  by rewrite (split1_cut _ _ _ Hkey).
Qed.

Lemma info_body_cut st key value :
  Py.contains ":" key = false → ¬ leading_space (key +:+ ":" +:+ value) →
  info_body st (key +:+ ":" +:+ value)
  = Ok {| info := save_current st;
          current_key := Some (Py.strip key);
          current_value := [Py.strip value] |}.
Proof.
  intros Hkey Hs. rewrite info_body_field.
  - by rewrite field_key_cut, field_value_cut.
  - apply opens_field_iff. split; [by exists key, value | done].
Qed.

Lemma info_body_continuation st line :
  opens_field line = false → Py.truthy (current_key st) = true →
  Py.startswith " " line = true →
  info_body st line = Ok (continued st line).
Proof.
  intros Hf Hk Hs. unfold info_body. fold (opens_field line).
  by rewrite Hf, Hk, Hs.
Qed.

Lemma info_body_discard st line :
  opens_field line = false →
  Py.truthy (current_key st) && Py.startswith " " line = false →
  info_body st line = Ok st.
Proof.
  intros Hf Hk. unfold info_body. fold (opens_field line). by rewrite Hf, Hk.
Qed.

(** Case analysis on the branch that [info_body st l] takes: three goals,
    each rewritten with the state its branch gives. *)
Ltac info_body_branches st l :=
  let Hf := fresh "Hfield" in
  let Hc := fresh "Hcont" in
  destruct (opens_field l) eqn:Hf;
  [ rewrite (info_body_field st l Hf)
  | destruct (Py.truthy (current_key st) && Py.startswith " " l) eqn:Hc;
    [ rewrite (info_body_continuation st l Hf
                 (proj1 (proj1 (andb_true_iff _ _) Hc))
                 (proj2 (proj1 (andb_true_iff _ _) Hc)))
    | rewrite (info_body_discard st l Hf Hc) ] ];
  simpl.

Lemma info_body_total st line : ∃ st', info_body st line = Ok st'.
Proof. info_body_branches st line; by eexists. Qed.

Lemma info_loop_total lines st : ∃ st', for_each info_body st lines = Ok st'.
Proof.
  revert st. induction lines as [|l lines IH]; intros st; simpl; [by eexists|].
  destruct (info_body_total st l) as [st' ->]. simpl. apply IH.
Qed.

Lemma save_current_other st k :
  current_key st ≠ Some k → save_current st !! k = info st !! k.
Proof.
  intros Hk. unfold save_current. destruct (current_key st) as [k'|]; [|done].
  destruct (Py.truthy (Some k')); [|done].
  rewrite lookup_insert_ne; [done | congruence].
Qed.

Lemma save_current_empty_key st :
  save_current st !! EmptyString = info st !! EmptyString.
Proof.
  unfold save_current. destruct (current_key st) as [[|c k']|]; [done| |done].
  simpl. by rewrite lookup_insert_ne.
Qed.

(** A binding that is no longer open survives the lines that do not reopen
    its key. *)
Lemma info_loop_keeps lines st k v :
  info st !! k = Some v → current_key st ≠ Some k →
  (∀ l, l ∈ lines → opens_field l = true → field_key l ≠ k) →
  ∃ st', for_each info_body st lines = Ok st' ∧ save_current st' !! k = Some v.
Proof.
  revert st. induction lines as [|l lines IH]; intros st Hv Hk Hlines; simpl.
  - eexists; split; [done|]. by rewrite save_current_other.
  - assert (Hrest : ∀ l', l' ∈ lines → opens_field l' = true → field_key l' ≠ k)
      by (intros l' ?; apply Hlines; by right).
    info_body_branches st l; [|by apply IH..].
    apply IH; simpl.
    + by rewrite save_current_other.
    + intros [= Heq]. by apply (Hlines l); [left| |].
    + done.
Qed.

(** The value of the open field grows by the continuations that follow. *)
Lemma info_loop_open lines st k :
  current_key st = Some k → k ≠ EmptyString →
  (∀ l, l ∈ lines → opens_field l = true → field_key l ≠ k) →
  ∃ st', for_each info_body st lines = Ok st' ∧
         save_current st' !! k
         = Some (Py.join NL (current_value st ++ continuations lines)).
Proof.
  revert st. induction lines as [|l lines IH]; intros st Hk Hne Hlines; simpl.
  - eexists; split; [done|].
    by rewrite (save_current_open _ _ Hk Hne), lookup_insert_eq, app_nil_r.
  - assert (Hrest : ∀ l', l' ∈ lines → opens_field l' = true → field_key l' ≠ k)
      by (intros l' ?; apply Hlines; by right).
    assert (Ht : Py.truthy (current_key st) = true)
      by (rewrite Hk; by apply truthy_Some).
    info_body_branches st l.
    + rewrite app_nil_r. apply info_loop_keeps; simpl.
      * by rewrite (save_current_open _ _ Hk Hne), lookup_insert_eq.
      * intros [= Heq]. by apply (Hlines l); [left| |].
      * done.
    + rewrite Ht in Hcont. simpl in Hcont. rewrite Hcont.
      destruct (IH (continued st l) Hk Hne Hrest) as (st' & -> & Hst').
      eexists; split; [done|]. rewrite Hst'. simpl.
      by rewrite <- app_assoc.
    + rewrite Ht in Hcont. simpl in Hcont. rewrite Hcont. by apply IH.
Qed.

(** While no field with a non-empty key is open, the lines that open no
    field change nothing. *)
Lemma info_loop_closed lines st :
  Py.truthy (current_key st) = false →
  Forall (λ l, opens_field l = false) lines →
  for_each info_body st lines = Ok st.
Proof.
  intros Hk Hlines. induction Hlines as [|l lines Hl _ IH]; simpl; [done|].
  rewrite info_body_discard by (try done; by rewrite Hk). apply IH.
Qed.

(** The empty string is never bound. *)
Lemma info_loop_empty_key lines st :
  info st !! EmptyString = None →
  ∃ st', for_each info_body st lines = Ok st' ∧
         save_current st' !! EmptyString = None.
Proof.
  revert st. induction lines as [|l lines IH]; intros st Hst; simpl.
  - eexists; split; [done|]. by rewrite save_current_empty_key.
  - info_body_branches st l; [|by apply IH..].
    apply IH. simpl. by rewrite save_current_empty_key.
Qed.

Lemma parse_info_lines_total lines : ∃ m, parse_info_lines lines = Ok m.
Proof.
  unfold parse_info_lines.
  destruct (info_loop_total lines info_init) as [st ->]. by eexists.
Qed.

End info.

(** * The parsers against their specification *)

(** ** Search output *)

(** C3. When the trimmed text is a header line followed by N lines of at
    least five tokens each, [parse_snap_search] returns N records, the i-th
    record built from the i-th line: its name, version, publisher and notes
    are the first four tokens and its summary is the other tokens joined by
    single spaces, whatever separated them in the line. *)
Theorem parse_snap_search_rows (output header : string) (rows : list string) :
  Py.split Py.newline (Py.strip output) = header :: rows →
  Forall (λ row, 5 ≤ length (Py.split_ws row)) rows →
  ∃ records,
    parse_snap_search output = Ok records ∧
    length records = length rows ∧
    ∀ i row, rows !! i = Some row →
      ∃ r, records !! i = Some r ∧
           Py.split_ws row !! 0 = Some (name r) ∧
           Py.split_ws row !! 1 = Some (version r) ∧
           Py.split_ws row !! 2 = Some (publisher r) ∧
           Py.split_ws row !! 3 = Some (notes r) ∧
           summary r = Py.join " " (drop 4 (Py.split_ws row)).
Proof.
  intros Hlines Hrows.
  destruct (search_loop_long rows [] Hrows) as (records & Hloop & Hmatch).
  exists records. split; [|split].
  - by rewrite (parse_snap_search_lines _ _ _ Hlines), Hloop.
  - symmetry. by eapply Forall2_length.
  - intros i row Hi.
    destruct (Forall2_lookup_l _ _ _ _ _ Hmatch Hi) as (r & Hr & Hrow).
    exists r. split; [done|]. exact Hrow.
Qed.

Lemma parse_snap_search_rows_witness :
  ∃ records,
    parse_snap_search search_example = Ok records ∧
    length records = 1 ∧
    ∀ i row, ["firefox 120.0 mozilla stable Fast web browser"] !! i = Some row →
      ∃ r, records !! i = Some r ∧
           Py.split_ws row !! 0 = Some (name r) ∧
           Py.split_ws row !! 1 = Some (version r) ∧
           Py.split_ws row !! 2 = Some (publisher r) ∧
           Py.split_ws row !! 3 = Some (notes r) ∧
           summary r = Py.join " " (drop 4 (Py.split_ws row)).
Proof.
  apply (parse_snap_search_rows search_example
           "Name Version Publisher Notes Summary"
           ["firefox 120.0 mozilla stable Fast web browser"]).
  - reflexivity.
  - constructor; [vm_compute; lia | constructor].
Defined.

(** The example of the specification, evaluated. *)
Example parse_snap_search_example :
  parse_snap_search search_example
  = Ok [ {| name := "firefox"; version := "120.0"; publisher := "mozilla";
            notes := "stable"; summary := "Fast web browser" |} ].
Proof. reflexivity. Qed.

(** The same on the text as it comes, before trimming: a header that is
    not blank, then the data lines, then any blank tail such as the final
    newline. *)
Lemma search_body_tokens (packages : list package) (l l' : string) :
  Py.split_ws l = Py.split_ws l' → search_body packages l = search_body packages l'.
Proof. unfold search_body. by intros ->. Qed.

Lemma search_loop_rstrip_last (rows : list string) (packages : list package) :
  for_each search_body packages (rstrip_last rows)
  = for_each search_body packages rows.
Proof.
  revert packages. induction rows as [|row rows IH]; intros packages; [done|].
  destruct rows as [|row' rows].
  - simpl. by rewrite (search_body_tokens _ _ row (split_ws_rstrip row)).
  - change (rstrip_last (row :: row' :: rows)) with (row :: rstrip_last (row' :: rows)).
    simpl. destruct (search_body packages row); simpl; [apply IH | done].
Qed.

Lemma rstrip_last_Forall (P : string → Prop) (lines : list string) :
  (∀ l, P l → P (Py.rstrip l)) → Forall P lines → Forall P (rstrip_last lines).
Proof.
  intros HP. induction 1 as [|l lines Hl Hlines IH]; [constructor|].
  destruct lines as [|l' lines]; simpl; constructor; auto.
Qed.

Lemma strip_text (header trail : string) (rows : list string) :
  blank header = false → Forall (λ row, blank row = false) rows →
  blank trail = true →
  Py.strip (Py.join NL (header :: rows) +:+ trail)
  = Py.join NL (rstrip_last (Py.lstrip header :: rows)).
Proof.
  intros Hh Hrows Ht. unfold Py.strip.
  rewrite lstrip_append by (by apply blank_join_nonblank).
  rewrite rstrip_append_blank by done.
  rewrite lstrip_join by done. apply rstrip_join.
  constructor; [by rewrite blank_lstrip | done].
Qed.

Lemma parse_snap_search_text (header trail : string) (rows : list string) :
  blank header = false → Py.contains Py.newline header = false →
  Forall (λ row, blank row = false) rows →
  Forall (λ row, Py.contains Py.newline row = false) rows →
  blank trail = true →
  parse_snap_search (Py.join NL (header :: rows) +:+ trail)
  = for_each search_body [] rows.
Proof.
  intros Hh Hnl Hrows Hnls Ht. unfold parse_snap_search.
  rewrite strip_text by done.
  assert (Hfree : Forall (λ l, Py.contains Py.newline l = false)
                    (rstrip_last (Py.lstrip header :: rows))).
  { apply rstrip_last_Forall; [intros l; apply contains_rstrip|].
    constructor; [by apply contains_lstrip | done]. }
  destruct rows as [|row rows].
  - simpl in *. rewrite split_no_sep; [done | by inversion Hfree].
  - change (rstrip_last (Py.lstrip header :: row :: rows))
      with (Py.lstrip header :: rstrip_last (row :: rows)) in *.
    unfold NL. rewrite split_join by done.
    assert (Hlen : ¬ length (Py.lstrip header :: rstrip_last (row :: rows)) < 2).
    { destruct rows; simpl; lia. }
    rewrite bool_decide_eq_false_2 by done.
    change (drop 1 (Py.lstrip header :: rstrip_last (row :: rows)))
      with (rstrip_last (row :: rows)).
    apply search_loop_rstrip_last.
Qed.

Corollary parse_snap_search_text_rows (header trail : string) (rows : list string) :
  blank header = false → Py.contains Py.newline header = false →
  Forall (λ row, 5 ≤ length (Py.split_ws row)) rows →
  Forall (λ row, Py.contains Py.newline row = false) rows →
  blank trail = true →
  ∃ records,
    parse_snap_search (Py.join NL (header :: rows) +:+ trail) = Ok records ∧
    Forall2 row_matches rows records.
Proof.
  intros Hh Hnl Hrows Hnls Ht.
  destruct (search_loop_long rows [] Hrows) as (records & Hloop & Hmatch).
  exists records. split; [|done].
  rewrite parse_snap_search_text; try done.
  eapply Forall_impl; [exact Hrows|]. intros row Hlen. simpl in Hlen.
  destruct (blank row) eqn:Hb; [|done].
  rewrite (split_ws_blank _ Hb) in Hlen. simpl in Hlen. lia.
Qed.

(** C5. A data line of exactly four tokens adds no record: the result is
    what the lines before it give followed by what the lines after it give.
    A data line of exactly five tokens adds one record, whose summary is the
    fifth token as it stands. *)
Theorem parse_snap_search_four_or_five_tokens
    (output header line : string) (before after : list string) :
  Py.split Py.newline (Py.strip output) = header :: before ++ line :: after →
  ∃ rb ra,
    for_each search_body [] before = Ok rb ∧
    for_each search_body [] after = Ok ra ∧
    (length (Py.split_ws line) = 4 → parse_snap_search output = Ok (rb ++ ra)) ∧
    (∀ p0 p1 p2 p3 p4, Py.split_ws line = [p0; p1; p2; p3; p4] →
       parse_snap_search output
       = Ok (rb ++ {| name := p0; version := p1; publisher := p2; notes := p3;
                      summary := p4 |} :: ra)).
Proof.
  intros Hlines.
  destruct (search_loop_total before []) as [rb Hb].
  destruct (search_loop_total after []) as [ra Ha].
  simpl in Hb, Ha. exists rb, ra. split; [done|]. split; [done|].
  rewrite (parse_snap_search_lines _ _ _ Hlines), for_each_app, Hb. simpl.
  split.
  - intros Hlen. rewrite search_body_short by lia. simpl.
    rewrite search_loop_appends, Ha. done.
  - intros p0 p1 p2 p3 p4 Hparts.
    unfold search_body. rewrite Hparts. simpl.
    rewrite search_loop_appends, Ha. simpl. by rewrite <- app_assoc.
Qed.

Lemma parse_snap_search_four_or_five_tokens_witness :
  parse_snap_search ("H" +:+ NL +:+ "a 1 p - four" +:+ NL +:+ "x y  z w"
                     +:+ NL +:+ "b 2 q - five")
  = Ok [ {| name := "a"; version := "1"; publisher := "p"; notes := "-";
            summary := "four" |};
         {| name := "b"; version := "2"; publisher := "q"; notes := "-";
            summary := "five" |} ] ∧
  parse_snap_search ("H" +:+ NL +:+ "a 1 p - four" +:+ NL +:+ "x y  z w v"
                     +:+ NL +:+ "b 2 q - five")
  = Ok [ {| name := "a"; version := "1"; publisher := "p"; notes := "-";
            summary := "four" |};
         {| name := "x"; version := "y"; publisher := "z"; notes := "w";
            summary := "v" |};
         {| name := "b"; version := "2"; publisher := "q"; notes := "-";
            summary := "five" |} ].
Proof.
  split.
  - destruct (parse_snap_search_four_or_five_tokens
                ("H" +:+ NL +:+ "a 1 p - four" +:+ NL +:+ "x y  z w"
                 +:+ NL +:+ "b 2 q - five")
                "H" "x y  z w" ["a 1 p - four"] ["b 2 q - five"] eq_refl)
      as (rb & ra & Hb & Ha & Hfour & _).
    vm_compute in Hb, Ha. injection Hb as <-. injection Ha as <-.
    apply Hfour. reflexivity.
  - destruct (parse_snap_search_four_or_five_tokens
                ("H" +:+ NL +:+ "a 1 p - four" +:+ NL +:+ "x y  z w v"
                 +:+ NL +:+ "b 2 q - five")
                "H" "x y  z w v" ["a 1 p - four"] ["b 2 q - five"] eq_refl)
      as (rb & ra & Hb & Ha & _ & Hfive).
    vm_compute in Hb, Ha. injection Hb as <-. injection Ha as <-.
    apply Hfive. reflexivity.
Defined.

(** C7. When the trimmed text has fewer than two lines, [parse_snap_search]
    returns the empty list and does not raise. That is the case of a text
    whose trimmed form has no newline: a header alone, the empty text, a
    text of whitespace only. *)
Theorem parse_snap_search_too_few_lines (output : string) :
  (length (Py.split Py.newline (Py.strip output)) < 2 →
   parse_snap_search output = Ok []) ∧
  (Py.contains Py.newline (Py.strip output) = false →
   parse_snap_search output = Ok []) ∧
  (blank output = true → parse_snap_search output = Ok []).
Proof.
  split; [|split].
  - intros Hlen. unfold parse_snap_search. by rewrite bool_decide_eq_true_2.
  - intros Hnl. unfold parse_snap_search. by rewrite (split_no_sep _ _ Hnl).
  - intros Hb. unfold parse_snap_search. by rewrite (strip_blank _ Hb).
Qed.

Lemma parse_snap_search_too_few_lines_witness :
  parse_snap_search EmptyString = Ok [] ∧
  parse_snap_search ("Name Version Publisher Notes Summary" +:+ NL) = Ok [] ∧
  parse_snap_search (" " +:+ NL +:+ NL) = Ok [].
Proof.
  split; [|split].
  - apply (proj1 (parse_snap_search_too_few_lines EmptyString)). simpl. lia.
  - apply (proj1 (proj2 (parse_snap_search_too_few_lines
                           ("Name Version Publisher Notes Summary" +:+ NL)))).
    reflexivity.
  - apply (proj2 (proj2 (parse_snap_search_too_few_lines (" " +:+ NL +:+ NL)))).
    reflexivity.
Defined.

(** ** Info output *)

(** C2. The example of the specification: three keys, the value of
    [summary] made of two fragments joined by a newline, the value of
    [channels] made of an empty first fragment and one continuation. *)
Theorem parse_snap_info_example :
  parse_snap_info
    ("name: firefox" +:+ NL +:+ "summary: A browser" +:+ NL +:+
     "  that is fast" +:+ NL +:+ "channels:" +:+ NL +:+ "  stable: 120.0" +:+ NL)
  = Ok {[ "name" := "firefox";
          "summary" := "A browser" +:+ NL +:+ "that is fast";
          "channels" := NL +:+ "stable: 120.0" ]}.
Proof. vm_compute. reflexivity. Qed.

(** C1, as the code has it. The lines of the trimmed text go through
    [info_body] in order. A line begins a new field exactly when it has a
    colon and does not start with a space: the open field, if any, is saved
    and the line gives the new key and first fragment. Any other line is a
    continuation when a field is open and the line starts with a space: its
    stripped text is appended to the fragments. Every other line leaves the
    state as it is. The test is on the space character only. *)
Theorem info_body_cases (output : string) (st : info_state) (line : string) :
  parse_snap_info output
  = (for_each info_body info_init (Py.split Py.newline (Py.strip output))
     ≫= λ st', Ok (save_current st')) ∧
  (has_colon line ∧ ¬ leading_space line →
   info_body st line = Ok {| info := save_current st;
                             current_key := Some (field_key line);
                             current_value := [field_value line] |}) ∧
  (¬ (has_colon line ∧ ¬ leading_space line) →
   Py.truthy (current_key st) = true → leading_space line →
   info_body st line = Ok {| info := info st;
                             current_key := current_key st;
                             current_value := current_value st ++ [Py.strip line] |}) ∧
  (¬ (has_colon line ∧ ¬ leading_space line) →
   ¬ (Py.truthy (current_key st) = true ∧ leading_space line) →
   info_body st line = Ok st).
Proof.
  split; [done|]. rewrite <- opens_field_iff, <- startswith_leading_space.
  split; [|split].
  - apply info_body_field.
  - intros Hf%not_true_is_false Hk Hs. by apply info_body_continuation.
  - intros Hf%not_true_is_false Hk. apply info_body_discard; [done|].
    apply not_true_is_false. by rewrite andb_true_iff.
Qed.

Lemma info_body_cases_witness :
  info_body {| info := ∅; current_key := Some "name"; current_value := ["firefox"] |}
            "summary: A browser"
  = Ok {| info := {[ "name" := "firefox" ]};
          current_key := Some "summary";
          current_value := ["A browser"] |} ∧
  info_body {| info := ∅; current_key := Some "summary"; current_value := ["A browser"] |}
            "  that is fast"
  = Ok {| info := ∅; current_key := Some "summary";
          current_value := ["A browser"; "that is fast"] |} ∧
  info_body info_init "  that is fast" = Ok info_init.
Proof.
  split; [|split].
  - apply (proj1 (proj2 (info_body_cases EmptyString
             {| info := ∅; current_key := Some "name"; current_value := ["firefox"] |}
             "summary: A browser"))).
    split; [by exists "summary", " A browser" | by intros (r & [=])].
  - apply (proj1 (proj2 (proj2 (info_body_cases EmptyString
             {| info := ∅; current_key := Some "summary";
                current_value := ["A browser"] |}
             "  that is fast")))).
    + intros [_ Hs]. apply Hs. by exists " that is fast".
    + reflexivity.
    + by exists " that is fast".
  - apply (proj2 (proj2 (proj2 (info_body_cases EmptyString info_init
             "  that is fast")))).
    + intros [_ Hs]. apply Hs. by exists " that is fast".
    + by intros [[=] _].
Defined.

(** C1, as stated, at a line that starts with a tab. With the field
    [summary] open, the line has no colon and starts with whitespace, yet
    nothing is appended; and a tab line with a colon begins a new field. *)
Lemma tab_line_is_no_continuation :
  (starts_with_whitespace (TAB +:+ "that is fast") = true ∧
   Py.contains ":" (TAB +:+ "that is fast") = false ∧
   Py.truthy (current_key summary_open) = true ∧
   info_body summary_open (TAB +:+ "that is fast") = Ok summary_open ∧
   info_body summary_open (TAB +:+ "that is fast")
   ≠ Ok (continued summary_open (TAB +:+ "that is fast"))) ∧
  (starts_with_whitespace (TAB +:+ "channels: x") = true ∧
   info_body summary_open (TAB +:+ "channels: x")
   = Ok {| info := {[ "summary" := "A browser" ]};
           current_key := Some "channels";
           current_value := ["x"] |}) ∧
  parse_snap_info ("summary: A browser" +:+ NL +:+ TAB +:+ "that is fast")
  = Ok {[ "summary" := "A browser" ]}.
Proof.
  split; [|split].
  - repeat split; try reflexivity. by intros [=].
  - split; reflexivity.
  - vm_compute. reflexivity.
Qed.

(** A field whose key is the empty string is open in name only: a line that
    starts with a space is not appended to it either. *)
Example space_line_after_empty_key :
  info_body empty_key_open "  more" = Ok empty_key_open ∧
  info_body empty_key_open "  more" ≠ Ok (continued empty_key_open "  more").
Proof. split; [reflexivity | by intros [=]]. Qed.

(** C6. A new-field line is cut at its first colon only. With [key] the
    text before the first colon and [value] all the text after it, the
    field opened has the stripped [key] as key and the stripped [value] as
    its first fragment; stripping removes blank ends only, so the colons of
    [value] are all in the fragment. *)
Theorem info_body_first_colon (st : info_state) (key value : string) :
  Py.contains ":" key = false → ¬ leading_space (key +:+ ":" +:+ value) →
  info_body st (key +:+ ":" +:+ value)
  = Ok {| info := save_current st;
          current_key := Some (Py.strip key);
          current_value := [Py.strip value] |} ∧
  ∃ l r, value = l +:+ Py.strip value +:+ r ∧
         blank l = true ∧ blank r = true ∧
         Py.contains ":" l = false ∧ Py.contains ":" r = false.
Proof.
  intros Hkey Hs. split.
  - by apply info_body_cut.
  - destruct (strip_cut value) as (l & r & Hv & Hl & Hr).
    exists l, r. repeat split; try done; by apply blank_contains.
Qed.

Lemma info_body_first_colon_witness :
  info_body info_init "description: http://example.com"
  = Ok {| info := ∅;
          current_key := Some "description";
          current_value := ["http://example.com"] |}.
Proof.
  apply (info_body_first_colon info_init "description" " http://example.com").
  - reflexivity.
  - by intros (r & [=]).
Defined.

(** The line of C6 as a whole input. *)
Example parse_snap_info_url :
  parse_snap_info "description: http://example.com"
  = Ok {[ "description" := "http://example.com" ]}.
Proof. vm_compute. reflexivity. Qed.

(** C4, as the code has it. Take a new-field line whose key is not empty
    and such that no later new-field line has the same key. The result binds
    the key to the value of that line alone: its first fragment and the
    continuations that follow it, joined by newlines. The lines before it,
    which may open the same key, have no part in the value. *)
Theorem parse_snap_info_last_field_wins
    (output line : string) (before rest : list string) :
  Py.split Py.newline (Py.strip output) = before ++ line :: rest →
  has_colon line → ¬ leading_space line →
  field_key line ≠ EmptyString →
  (∀ l, l ∈ rest → has_colon l → ¬ leading_space l → field_key l ≠ field_key line) →
  ∃ m, parse_snap_info output = Ok m ∧
       m !! field_key line
       = Some (Py.join NL (field_value line :: continuations rest)).
Proof.
  intros Hlines Hc Hs Hne Hrest.
  assert (Hf : opens_field line = true) by (by apply opens_field_iff).
  unfold parse_snap_info, parse_info_lines. rewrite Hlines, for_each_app.
  destruct (info_loop_total before info_init) as [st1 ->]. simpl.
  rewrite (info_body_field _ _ Hf). simpl.
  edestruct (info_loop_open rest) as (st' & -> & Hst'); [reflexivity|exact Hne| |].
  - intros l Hl [??]%opens_field_iff. by apply Hrest.
  - simpl. by eexists.
Qed.

Lemma parse_snap_info_last_field_wins_witness :
  ∃ m, parse_snap_info ("name: a" +:+ NL +:+ "name: b" +:+ NL) = Ok m ∧
       m !! "name" = Some "b".
Proof.
  apply (parse_snap_info_last_field_wins
           ("name: a" +:+ NL +:+ "name: b" +:+ NL) "name: b" ["name: a"] []).
  - reflexivity.
  - by exists "name", " b".
  - by intros (r & [=]).
  - by intros [=].
  - by intros l ?%elem_of_nil.
Defined.

(** The duplicate-key example of the specification, evaluated: one binding. *)
Example parse_snap_info_duplicate :
  parse_snap_info ("name: a" +:+ NL +:+ "name: b" +:+ NL) = Ok {[ "name" := "b" ]}.
Proof. vm_compute. reflexivity. Qed.

(** C4, as stated, at the empty key: two new-field lines with the same key
    text, and no binding for it in the result. *)
Lemma repeated_empty_key_is_not_bound :
  Py.split Py.newline (Py.strip (": a" +:+ NL +:+ ": b" +:+ NL)) = [": a"; ": b"] ∧
  opens_field ": a" = true ∧ opens_field ": b" = true ∧
  field_key ": a" = field_key ": b" ∧
  parse_snap_info (": a" +:+ NL +:+ ": b" +:+ NL) = Ok ∅ ∧
  ¬ ∃ m v, parse_snap_info (": a" +:+ NL +:+ ": b" +:+ NL) = Ok m ∧
           m !! field_key ": b" = Some v.
Proof.
  assert (Hrun : parse_snap_info (": a" +:+ NL +:+ ": b" +:+ NL) = Ok ∅)
    by (vm_compute; reflexivity).
  repeat split; try done.
  intros (m & v & Hm & Hv). rewrite Hrun in Hm. injection Hm as <-.
  by rewrite lookup_empty in Hv.
Qed.

(** C8, as the code has it. Take the lines of the trimmed text that come
    before the first new-field line, that is before the first line with a
    colon and no space at its start. All of them are dropped without an
    error. So the result is the one that the remaining lines give when the
    lines dropped are those that start with a whitespace character, or those
    that start with a space, or any choice among them. *)
Theorem parse_snap_info_before_first_field (output : string) (before rest : list string) :
  Py.split Py.newline (Py.strip output) = before ++ rest →
  Forall (λ l, ¬ (has_colon l ∧ ¬ leading_space l)) before →
  (∃ m, parse_snap_info output = Ok m) ∧
  parse_snap_info output
  = parse_info_lines (filter (λ l, starts_with_whitespace l = false) before ++ rest) ∧
  parse_snap_info output
  = parse_info_lines (filter (λ l, Py.startswith " " l = false) before ++ rest) ∧
  ∀ kept, kept `sublist_of` before →
          parse_snap_info output = parse_info_lines (kept ++ rest).
Proof.
  intros Hlines Hbefore.
  assert (Hb : Forall (λ l, opens_field l = false) before).
  { eapply Forall_impl; [exact Hbefore|]. intros l Hl.
    apply not_true_is_false. by rewrite opens_field_iff. }
  assert (Hkept : ∀ kept, kept `sublist_of` before →
            parse_snap_info output = parse_info_lines (kept ++ rest)).
  { intros kept Hsub.
    unfold parse_snap_info, parse_info_lines. rewrite Hlines, !for_each_app.
    rewrite !info_loop_closed; try done.
    apply Forall_forall. intros l Hl. rewrite Forall_forall in Hb.
    apply Hb. by eapply elem_of_sublist. }
  split; [apply parse_info_lines_total|].
  split; [apply Hkept, sublist_filter|].
  split; [apply Hkept, sublist_filter | exact Hkept].
Qed.

Lemma parse_snap_info_before_first_field_witness :
  (∃ m, parse_snap_info ("note" +:+ NL +:+ "  stray: 1" +:+ NL +:+ TAB +:+ "more"
                         +:+ NL +:+ "name: a") = Ok m) ∧
  parse_snap_info ("note" +:+ NL +:+ "  stray: 1" +:+ NL +:+ TAB +:+ "more"
                   +:+ NL +:+ "name: a")
  = parse_info_lines ["note"; "name: a"] ∧
  parse_snap_info ("note" +:+ NL +:+ "  stray: 1" +:+ NL +:+ TAB +:+ "more"
                   +:+ NL +:+ "name: a")
  = parse_info_lines ["note"; TAB +:+ "more"; "name: a"] ∧
  ∀ kept, kept `sublist_of` ["note"; "  stray: 1"; TAB +:+ "more"] →
          parse_snap_info ("note" +:+ NL +:+ "  stray: 1" +:+ NL +:+ TAB +:+ "more"
                           +:+ NL +:+ "name: a")
          = parse_info_lines (kept ++ ["name: a"]).
Proof.
  apply (parse_snap_info_before_first_field
           ("note" +:+ NL +:+ "  stray: 1" +:+ NL +:+ TAB +:+ "more"
            +:+ NL +:+ "name: a")
           ["note"; "  stray: 1"; TAB +:+ "more"] ["name: a"]).
  - reflexivity.
  - constructor; [|constructor; [|constructor; [|constructor]]].
    + intros [Hc%contains_has_colon _]. discriminate Hc.
    + intros [_ Hs]. apply Hs. by exists " stray: 1".
    + intros [Hc%contains_has_colon _]. discriminate Hc.
Defined.

(** C8, as stated, fails in two ways. A line that starts with a tab and
    has a colon, before any new-field line, is not dropped: it opens the
    field [y], which the other line alone does not give. And the first line
    of the text as it comes loses its indentation when the text is trimmed:
    alone in the text, the line [" a: 1"] starts with a space and comes
    before any new-field line, yet it opens the field [a]. *)
Lemma whitespace_line_before_first_field_is_kept :
  (Py.split Py.newline (Py.strip ("x" +:+ NL +:+ TAB +:+ "y: 1"))
   = ["x"; TAB +:+ "y: 1"] ∧
   opens_field "x" = false ∧
   starts_with_whitespace (TAB +:+ "y: 1") = true ∧
   parse_snap_info ("x" +:+ NL +:+ TAB +:+ "y: 1") = Ok {[ "y" := "1" ]} ∧
   parse_info_lines ["x"] = Ok ∅ ∧
   parse_snap_info "x" = Ok ∅ ∧
   parse_snap_info ("x" +:+ NL +:+ TAB +:+ "y: 1") ≠ parse_snap_info "x") ∧
  (Py.split Py.newline " a: 1" = [" a: 1"] ∧
   Py.startswith " " " a: 1" = true ∧
   starts_with_whitespace " a: 1" = true ∧
   Py.split Py.newline (Py.strip " a: 1") = ["a: 1"] ∧
   parse_snap_info " a: 1" = Ok {[ "a" := "1" ]} ∧
   parse_info_lines [] = Ok ∅ ∧
   parse_snap_info EmptyString = Ok ∅ ∧
   parse_snap_info " a: 1" ≠ parse_snap_info EmptyString).
Proof.
  assert (Hkept : parse_snap_info ("x" +:+ NL +:+ TAB +:+ "y: 1") = Ok {[ "y" := "1" ]})
    by (vm_compute; reflexivity).
  assert (Hother : parse_snap_info "x" = Ok ∅) by (vm_compute; reflexivity).
  assert (Hfirst : parse_snap_info " a: 1" = Ok {[ "a" := "1" ]})
    by (vm_compute; reflexivity).
  assert (Hempty : parse_snap_info EmptyString = Ok ∅) by (vm_compute; reflexivity).
  split; repeat split; try done.
Qed.

(** C10, as the code has it. A new-field line whose key strips to the empty
    string opens a field with the empty key. Saving commits the open field
    only when its key is not empty. While the empty key is open, a line that
    starts with a space is dropped. The empty string is bound in no result. *)
Theorem parse_snap_info_empty_key
    (output : string) (st : info_state) (key value line : string) :
  (Py.contains ":" key = false → Py.strip key = EmptyString →
   ¬ leading_space (key +:+ ":" +:+ value) →
   info_body st (key +:+ ":" +:+ value)
   = Ok {| info := save_current st;
           current_key := Some EmptyString;
           current_value := [Py.strip value] |}) ∧
  (current_key st = Some EmptyString → save_current st = info st) ∧
  (save_current st ≠ info st →
   ∃ k, k ≠ EmptyString ∧ current_key st = Some k ∧
        save_current st = <[k := Py.join NL (current_value st)]> (info st)) ∧
  (current_key st = Some EmptyString → leading_space line →
   info_body st line = Ok st) ∧
  (∃ m, parse_snap_info output = Ok m ∧ m !! EmptyString = None ∧
        ∀ k, is_Some (m !! k) → k ≠ EmptyString).
Proof.
  repeat apply conj.
  - intros Hkey Hstrip Hs.
    by rewrite (info_body_cut st key value Hkey Hs), Hstrip.
  - intros Hk. apply save_current_closed. by rewrite Hk.
  - intros Hsave. destruct (current_key st) as [k|] eqn:Hk.
    + destruct (decide (k = EmptyString)) as [->|Hne].
      * exfalso. apply Hsave, save_current_closed. by rewrite Hk.
      * exists k. by rewrite (save_current_open _ _ Hk Hne).
    + exfalso. apply Hsave, save_current_closed. by rewrite Hk.
  - intros Hk Hs%startswith_leading_space. apply info_body_discard.
    + unfold opens_field. by rewrite Hs, andb_false_r.
    + by rewrite Hk.
  - unfold parse_snap_info, parse_info_lines.
    edestruct (info_loop_empty_key (Py.split Py.newline (Py.strip output)) info_init)
      as (st' & -> & Hst'); [done|].
    simpl. eexists. split; [done|]. split; [done|].
    intros k [v Hv] ->. congruence.
Qed.

Lemma parse_snap_info_empty_key_witness :
  info_body info_init ": value"
  = Ok {| info := ∅; current_key := Some EmptyString; current_value := ["value"] |} ∧
  save_current {| info := ∅; current_key := Some EmptyString;
                  current_value := ["value"] |} = ∅ ∧
  info_body {| info := ∅; current_key := Some EmptyString; current_value := ["value"] |}
            "  more"
  = Ok {| info := ∅; current_key := Some EmptyString; current_value := ["value"] |}.
Proof.
  pose proof (parse_snap_info_empty_key EmptyString info_init EmptyString " value"
                EmptyString) as (Hopen & _).
  pose proof (parse_snap_info_empty_key EmptyString
                {| info := ∅; current_key := Some EmptyString;
                   current_value := ["value"] |}
                EmptyString EmptyString "  more") as (_ & Hsave & _ & Hdrop & _).
  split; [|split].
  - apply Hopen; [reflexivity | reflexivity | by intros (r & [=])].
  - apply Hsave. reflexivity.
  - apply Hdrop; [reflexivity | by exists " more"].
Defined.

(** C10, as stated, at a line that starts with a tab: with the empty key
    open, the line starts with whitespace and is not dropped; it opens the
    field [k]. *)
Lemma tab_line_after_empty_key_is_kept :
  starts_with_whitespace (TAB +:+ "k: w") = true ∧
  info_body empty_key_open (TAB +:+ "k: w")
  = Ok {| info := ∅; current_key := Some "k"; current_value := ["w"] |} ∧
  info_body empty_key_open (TAB +:+ "k: w") ≠ Ok empty_key_open ∧
  parse_snap_info (": v" +:+ NL +:+ TAB +:+ "k: w") = Ok {[ "k" := "w" ]}.
Proof.
  repeat split; try (vm_compute; reflexivity).
  vm_compute. intros [=].
Qed.

(** ** Both parsers *)

(** C9. On every text both parsers return a value: a list of records,
    a mapping. No input makes them raise. *)
Theorem parsers_never_raise (output : string) :
  (∃ records, parse_snap_search output = Ok records) ∧
  (∃ m, parse_snap_info output = Ok m).
Proof.
  split.
  - unfold parse_snap_search. case_bool_decide; [by eexists|].
    destruct (search_loop_total (drop 1 (Py.split Py.newline (Py.strip output))) [])
      as [r ->]. by eexists.
  - apply parse_info_lines_total.
Qed.

(** * Further properties of the parsers *)

(** ** Strings, continued *)

Section more_strings.

Implicit Types (s t : string) (ts : list string).

Lemma lstrip_blank_prefix l s : blank l = true → Py.lstrip (l +:+ s) = Py.lstrip s.
Proof.
  induction l as [|c l IH]; simpl; [done|].
  intros [-> Hl]%andb_true_iff. by apply IH.
Qed.

Lemma strip_padding l s r :
  blank l = true → blank r = true → Py.strip (l +:+ s +:+ r) = Py.strip s.
Proof.
  intros Hl Hr. unfold Py.strip. rewrite lstrip_blank_prefix by done.
  destruct (blank s) eqn:Hs.
  - rewrite !rstrip_blank; try done; rewrite blank_lstrip; [done|].
    by rewrite blank_append, Hs, Hr.
  - rewrite lstrip_append by done. by apply rstrip_append_blank.
Qed.

Lemma ends_with_whitespace_append s t :
  t ≠ EmptyString → ends_with_whitespace (s +:+ t) = ends_with_whitespace t.
Proof.
  intros Ht. induction s as [|c s IH]; [done|].
  rewrite append_cons. simpl. rewrite IH.
  destruct (s +:+ t) eqn:E; [|done]. by destruct s.
Qed.

Lemma token_trimmed t : token t → trimmed t.
Proof.
  intros [Hne Hs]. split.
  - destruct t as [|c t]; [done|]. simpl in *. by apply orb_false_iff in Hs as [? _].
  - clear Hne. induction t as [|c t IH]; [done|]. simpl in *.
    apply orb_false_iff in Hs as [Hc Ht]. destruct t; [done | by apply IH].
Qed.

Lemma split_ws_join ts : Forall token ts → Py.split_ws (Py.join " " ts) = ts.
Proof.
  induction 1 as [|t ts [Hne Hs] Hts IH]; [done|].
  destruct ts as [|t' ts].
  - simpl. rewrite <- (append_empty_r t) at 1. by apply split_ws_last.
  - rewrite join_cons, split_ws_gap by done. by rewrite IH.
Qed.

Lemma join_tokens_nonempty t ts : t ≠ EmptyString → Py.join " " (t :: ts) ≠ EmptyString.
Proof. destruct t; [done|]. by destruct ts. Qed.

Lemma join_tokens_trimmed t ts : Forall token (t :: ts) → trimmed (Py.join " " (t :: ts)).
Proof.
  revert t. induction ts as [|t' ts IH]; intros t Hall.
  - apply token_trimmed. by inversion Hall.
  - inversion Hall as [|?? Ht Hrest]; subst.
    destruct (IH t' Hrest) as [_ Hend].
    destruct (token_trimmed t Ht) as [Hstart _].
    rewrite join_cons. split.
    + destruct t as [|c t]; [by destruct Ht|]. exact Hstart.
    + rewrite ends_with_whitespace_append.
      * rewrite ends_with_whitespace_append; [done|].
        apply join_tokens_nonempty. inversion Hrest as [|?? [? _] _]. done.
      * done.
Qed.

End more_strings.

(** ** Search output, continued *)

Lemma search_loop_filter (rows : list string) (packages : list package) :
  ∃ records,
    for_each search_body packages rows = Ok (packages ++ records) ∧
    Forall2 row_matches (filter (λ row, 5 ≤ length (Py.split_ws row)) rows) records.
Proof.
  revert packages. induction rows as [|row rows IH]; intros packages; simpl.
  - exists []. by rewrite app_nil_r.
  - destruct (decide (5 ≤ length (Py.split_ws row))) as [Hlen|Hlen].
    + destruct (search_body_long packages row Hlen) as (r & -> & Hr). simpl.
      destruct (IH (packages ++ [r])) as (records & -> & Hrec).
      exists (r :: records). rewrite filter_cons_True by done.
      split; [by rewrite <- app_assoc | by constructor].
    + rewrite search_body_short by lia. simpl.
      destruct (IH packages) as (records & -> & Hrec).
      exists records. by rewrite filter_cons_False.
Qed.

(** X1. Whitespace around the text, such as the newline that ends the output
    of a command, changes the result of neither parser. *)
Theorem parsers_ignore_padding (lead output trail : string) :
  blank lead = true → blank trail = true →
  parse_snap_search (lead +:+ output +:+ trail) = parse_snap_search output ∧
  parse_snap_info (lead +:+ output +:+ trail) = parse_snap_info output.
Proof.
  intros Hl Ht. unfold parse_snap_search, parse_snap_info.
  by rewrite (strip_padding _ _ _ Hl Ht).
Qed.

Lemma parsers_ignore_padding_witness :
  parse_snap_search (NL +:+ search_example +:+ (" " +:+ NL))
  = parse_snap_search search_example ∧
  parse_snap_info (NL +:+ "name: a" +:+ (" " +:+ NL)) = parse_snap_info "name: a".
Proof.
  split.
  - apply (parsers_ignore_padding NL search_example (" " +:+ NL)); reflexivity.
  - apply (parsers_ignore_padding NL "name: a" (" " +:+ NL)); reflexivity.
Defined.

Lemma parse_snap_search_records (output : string) :
  ∃ records,
    parse_snap_search output = Ok records ∧
    Forall2 row_matches
      (filter (λ row, 5 ≤ length (Py.split_ws row))
              (drop 1 (Py.split Py.newline (Py.strip output))))
      records.
Proof.
  destruct (search_loop_filter (drop 1 (Py.split Py.newline (Py.strip output))) [])
    as (records & Hloop & Hmatch).
  unfold parse_snap_search. case_bool_decide as Hfew.
  - exists []. split; [done|].
    destruct (Py.split Py.newline (Py.strip output)) as [|h [|row rows]];
      simpl in *; try lia; by repeat constructor.
  - exists records. by rewrite Hloop.
Qed.


(** X3. In every record that [parse_snap_search] returns, the name, the
    version, the publisher and the notes are tokens: not empty and free of
    whitespace. The summary is not empty, has no whitespace at its ends,
    and is in normal form: splitting it at whitespace and joining the
    pieces with single spaces gives it back. *)
Theorem parse_snap_search_record_shape
    (output : string) (records : list package) (r : package) :
  parse_snap_search output = Ok records → r ∈ records →
  Forall token [name r; version r; publisher r; notes r] ∧
  summary r ≠ EmptyString ∧ trimmed (summary r) ∧
  Py.join " " (Py.split_ws (summary r)) = summary r.
Proof.
  intros Hparse Hr.
  destruct (parse_snap_search_records output) as (records' & Hparse' & Hmatch).
  rewrite Hparse in Hparse'. injection Hparse' as <-.
  apply list_elem_of_lookup in Hr as [i Hi].
  destruct (Forall2_lookup_r _ _ _ _ _ Hmatch Hi) as (row & Hfilter & Hrow).
  apply list_elem_of_lookup_2, list_elem_of_filter in Hfilter as [Hlen _].
  destruct Hrow as (H0 & H1 & H2 & H3 & Hsum).
  pose proof (split_ws_tokens row) as Htok. fold token in Htok.
  assert (Hin : ∀ j t, Py.split_ws row !! j = Some t → token t).
  { intros j t Hj. rewrite Forall_forall in Htok. apply Htok.
    apply list_elem_of_lookup. by exists j. }
  assert (Hrest : Forall token (drop 4 (Py.split_ws row))) by by apply Forall_drop.
  destruct (drop 4 (Py.split_ws row)) as [|p4 rest] eqn:Hdrop.
  { apply (f_equal length) in Hdrop. rewrite length_drop in Hdrop.
    simpl in Hdrop. lia. }
  split; [repeat (constructor; [by eauto|]); constructor|].
  rewrite Hsum. split; [|split].
  - apply join_tokens_nonempty. by inversion Hrest as [|?? [? _] _].
  - by apply join_tokens_trimmed.
  - by rewrite split_ws_join.
Qed.

Lemma parse_snap_search_record_shape_witness :
  Forall token ["firefox"; "120.0"; "mozilla"; "stable"] ∧
  "Fast web browser" ≠ EmptyString ∧ trimmed "Fast web browser" ∧
  Py.join " " (Py.split_ws "Fast web browser") = "Fast web browser".
Proof.
  apply (parse_snap_search_record_shape search_example
           [ {| name := "firefox"; version := "120.0"; publisher := "mozilla";
                notes := "stable"; summary := "Fast web browser" |} ]
           {| name := "firefox"; version := "120.0"; publisher := "mozilla";
              notes := "stable"; summary := "Fast web browser" |}).
  - reflexivity.
  - by left.
Defined.

(** ** Info output, continued *)

Section more_info.

Implicit Types (st : info_state) (line k v : string) (lines : list string).

Lemma is_Some_save_current st k :
  is_Some (save_current st !! k)
  ↔ is_Some (info st !! k) ∨ (current_key st = Some k ∧ k ≠ EmptyString).
Proof.
  unfold save_current. destruct (current_key st) as [k'|] eqn:Hk.
  - destruct (Py.truthy (Some k')) eqn:Ht.
    + apply truthy_Some in Ht. rewrite lookup_insert. case_decide as Heq.
      * subst k'. split; [intros _; by right | intros _; by eexists].
      * split; [by left | intros [?|[[= ?] _]]; done].
    + assert (k' = EmptyString) as -> by (by destruct k').
      split; [by left | intros [?|[[= <-] ?]]; done].
  - split; [by left | intros [?|[[=] _]]; done].
Qed.

(** Case analysis on the branch that [info_body st l] takes. *)
Ltac info_body_branches st l :=
  let Hf := fresh "Hfield" in
  let Hc := fresh "Hcont" in
  destruct (opens_field l) eqn:Hf;
  [ rewrite (info_body_field st l Hf)
  | destruct (Py.truthy (current_key st) && Py.startswith " " l) eqn:Hc;
    [ rewrite (info_body_continuation st l Hf
                 (proj1 (proj1 (andb_true_iff _ _) Hc))
                 (proj2 (proj1 (andb_true_iff _ _) Hc)))
    | rewrite (info_body_discard st l Hf Hc) ] ];
  simpl.

(** The keys bound at the end are the ones bound at the start and the keys,
    not empty, of the new-field lines. *)
Lemma info_loop_keys lines st :
  ∃ st', for_each info_body st lines = Ok st' ∧
    ∀ k, is_Some (save_current st' !! k)
         ↔ is_Some (save_current st !! k) ∨
           (k ≠ EmptyString ∧
            ∃ line, line ∈ lines ∧ opens_field line = true ∧ field_key line = k).
Proof.
  revert st. induction lines as [|l lines IH]; intros st; simpl.
  - eexists; split; [done|]. intros k. split; [by left|].
    intros [?|(_ & line & []%elem_of_nil & _)]; done.
  - info_body_branches st l.
    + destruct (IH {| info := save_current st; current_key := Some (field_key l);
                      current_value := [field_value l] |}) as (st' & -> & Hst').
      eexists; split; [done|]. intros k. rewrite Hst', is_Some_save_current.
      simpl. split.
      * intros [[?|[[= <-] ?]]|(? & line & ? & ? & ?)].
        -- by left.
        -- right. split; [done|]. exists l. split; [by left | done].
        -- right. split; [done|]. exists line. split; [by right | done].
      * intros [?|(Hne & line & [->|?]%elem_of_cons & ? & Hkey)].
        -- by left; left.
        -- left; right. by rewrite Hkey.
        -- right. split; [done|]. by exists line.
    + destruct (IH (continued st l)) as (st' & -> & Hst').
      eexists; split; [done|]. intros k. rewrite Hst', !is_Some_save_current.
      simpl. split.
      * intros [?|(? & line & ? & ? & ?)]; [by left|].
        right. split; [done|]. exists line. split; [by right | done].
      * intros [?|(? & line & [->|?]%elem_of_cons & Hopen & ?)]; [by left|congruence|].
        right. split; [done|]. by exists line.
    + destruct (IH st) as (st' & -> & Hst').
      eexists; split; [done|]. intros k. rewrite Hst'. split.
      * intros [?|(? & line & ? & ? & ?)]; [by left|].
        right. split; [done|]. exists line. split; [by right | done].
      * intros [?|(? & line & [->|?]%elem_of_cons & Hopen & ?)]; [by left|congruence|].
        right. split; [done|]. by exists line.
Qed.

Lemma parse_info_lines_keys lines :
  ∃ m, parse_info_lines lines = Ok m ∧
    ∀ k, is_Some (m !! k)
         ↔ k ≠ EmptyString ∧
           ∃ line, line ∈ lines ∧ opens_field line = true ∧ field_key line = k.
Proof.
  unfold parse_info_lines.
  destruct (info_loop_keys lines info_init) as (st' & -> & Hst').
  eexists; split; [done|]. intros k. rewrite Hst'. split; [|by right].
  intros [Hinit|?]; [|done]. unfold save_current in Hinit. simpl in Hinit.
  rewrite lookup_empty in Hinit. by destruct Hinit.
Qed.

Lemma strip_fragment s :
  Py.contains Py.newline s = false → fragment (Py.strip s).
Proof.
  intros Hs. split; [by apply contains_rstrip, contains_lstrip | apply strip_ends].
Qed.

Lemma field_pieces_fragment line :
  opens_field line = true → Py.contains Py.newline line = false →
  Py.contains ":" (field_key line) = false ∧
  fragment (field_key line) ∧ fragment (field_value line).
Proof.
  intros (key & value & -> & Hkey)%opens_field_cut Hnl.
  rewrite field_key_cut, field_value_cut by done.
  change (key +:+ ":" +:+ value) with (key +:+ String ":" value) in Hnl.
  rewrite contains_append in Hnl. apply orb_false_iff in Hnl as [Hk Hv].
  simpl in Hv. split; [by apply contains_rstrip, contains_lstrip|].
  split; apply strip_fragment; [done|].
  by destruct (decide (":"%char = Py.newline)).
Qed.

Lemma join_fragments (frags : list string) :
  frags ≠ [] → Forall fragment frags →
  Forall trimmed (Py.split Py.newline (Py.join NL frags)).
Proof.
  intros Hne Hall. destruct frags as [|f frags]; [done|].
  unfold NL. rewrite split_join.
  - eapply Forall_impl; [exact Hall|]. by intros x (_ & ? & ?).
  - eapply Forall_impl; [exact Hall|]. by intros x (? & _).
Qed.

Lemma save_current_values st k v :
  values_ok st → save_current st !! k = Some v →
  Forall trimmed (Py.split Py.newline v).
Proof.
  intros (Hinfo & Hfrags & Hne). unfold save_current.
  destruct (current_key st) as [k'|] eqn:Hk; [|apply Hinfo].
  destruct (Py.truthy (Some k')) eqn:Ht; [|apply Hinfo].
  rewrite lookup_insert. case_decide; [|apply Hinfo].
  intros [= <-]. apply join_fragments; [by apply Hne | done].
Qed.

Lemma info_loop_values lines st :
  Forall (λ l, Py.contains Py.newline l = false) lines → values_ok st →
  ∃ st', for_each info_body st lines = Ok st' ∧ values_ok st'.
Proof.
  intros Hlines. revert st.
  induction Hlines as [|l lines Hl _ IH]; intros st Hst; simpl; [by eexists|].
  info_body_branches st l; apply IH.
  - destruct (field_pieces_fragment l Hfield Hl) as (_ & _ & Hv).
    split; [|split]; simpl.
    + intros k v. by apply save_current_values.
    + constructor; [done | constructor].
    + by intros _.
  - destruct Hst as (Hinfo & Hfrags & Hne). split; [|split]; simpl; [done| |].
    + apply Forall_app. split; [done|].
      constructor; [by apply strip_fragment | constructor].
    + intros _. by destruct (current_value st).
  - done.
Qed.

End more_info.

(** X4. The keys of the result of [parse_snap_info] are the keys, when not
    empty, of the new-field lines of the trimmed text: every such key is
    bound and no other key is. In particular a text without new-field line
    gives the empty mapping. *)
Theorem parse_snap_info_keys (output : string) :
  ∃ m, parse_snap_info output = Ok m ∧
    ∀ k, is_Some (m !! k)
         ↔ k ≠ EmptyString ∧
           ∃ line, line ∈ Py.split Py.newline (Py.strip output) ∧
                   has_colon line ∧ ¬ leading_space line ∧ field_key line = k.
Proof.
  unfold parse_snap_info.
  destruct (parse_info_lines_keys (Py.split Py.newline (Py.strip output)))
    as (m & -> & Hm).
  exists m. split; [done|]. intros k. rewrite Hm. split.
  - intros (Hne & line & Hin & [??]%opens_field_iff & Hkey).
    split; [done|]. by exists line.
  - intros (Hne & line & Hin & Hc & Hs & Hkey).
    split; [done|]. exists line. by rewrite opens_field_iff.
Qed.

(** X5. Every key of the result of [parse_snap_info] is a trimmed text on
    one line that holds no colon. *)
Theorem parse_snap_info_key_shape (output : string) (m : gmap string string) (k : string) :
  parse_snap_info output = Ok m → is_Some (m !! k) →
  Py.contains ":" k = false ∧ Py.contains Py.newline k = false ∧ trimmed k.
Proof.
  unfold parse_snap_info. intros Hparse Hk.
  destruct (parse_info_lines_keys (Py.split Py.newline (Py.strip output)))
    as (m' & Hparse' & Hm).
  rewrite Hparse in Hparse'. injection Hparse' as <-.
  apply Hm in Hk as (_ & line & Hin & Hopen & <-).
  pose proof (split_sep_free Py.newline (Py.strip output)) as Hfree.
  rewrite Forall_forall in Hfree.
  destruct (field_pieces_fragment line Hopen (Hfree _ Hin)) as (Hcolon & Hfrag & _).
  destruct Hfrag as (Hnl & Hends). done.
Qed.

Lemma parse_snap_info_key_shape_witness :
  Py.contains ":" "installed size" = false ∧
  Py.contains Py.newline "installed size" = false ∧ trimmed "installed size".
Proof.
  apply (parse_snap_info_key_shape (" installed size :  12MB" +:+ NL)
           {[ "installed size" := "12MB" ]} "installed size").
  - vm_compute. reflexivity.
  - exists "12MB". vm_compute. reflexivity.
Defined.

(** X6. Every value of the result of [parse_snap_info] is made of trimmed
    lines: cut at its newlines, it gives texts without whitespace at
    either end. The indentation of the continuation lines is never part of
    a value. *)
Theorem parse_snap_info_value_shape
    (output : string) (m : gmap string string) (k v : string) :
  parse_snap_info output = Ok m → m !! k = Some v →
  Forall trimmed (Py.split Py.newline v).
Proof.
  unfold parse_snap_info, parse_info_lines. intros Hparse Hv.
  destruct (info_loop_values (Py.split Py.newline (Py.strip output)) info_init)
    as (st' & Hloop & Hok).
  - apply split_sep_free.
  - split; [|split]; simpl; [|constructor|done].
    intros k' v'. by rewrite lookup_empty.
  - rewrite Hloop in Hparse. simpl in Hparse. injection Hparse as <-.
    by eapply save_current_values.
Qed.

Lemma parse_snap_info_value_shape_witness :
  Forall trimmed (Py.split Py.newline ("A browser" +:+ NL +:+ "that is fast")).
Proof.
  apply (parse_snap_info_value_shape
           ("summary: A browser" +:+ NL +:+ "    that is fast  " +:+ NL +:+ "x: y")
           {[ "summary" := "A browser" +:+ NL +:+ "that is fast"; "x" := "y" ]}
           "summary").
  - vm_compute. reflexivity.
  - vm_compute. reflexivity.
Defined.

(** * The tool handlers *)

Section tools.

Implicit Types (run : list string → run_outcome) (name : string)
  (arguments : gmap string string).

Lemma tool_names : map tool_name list_tools = ["search_snaps"; "snap_info"].
Proof. reflexivity. Qed.

Lemma call_tool_search run arguments :
  call_tool run "search_snaps" arguments
  = match arguments !! "query" with
    | None => Some [ {| content_type := "text";
                        text := JObject (unexpected_error (str_key_error "query")) |} ]
    | Some query =>
        match run ["snap"; "search"; query] with
        | Completed stdout =>
            match parse_snap_search stdout with
            | Ok packages => Some [ {| content_type := "text"; text := JPackages packages |} ]
            | Raise e => Some [ {| content_type := "text";
                                   text := JObject (unexpected_error (str_pyexn e)) |} ]
            end
        | ExitNonZero stderr =>
            Some [ {| content_type := "text";
                      text := JObject (command_failed ["snap"; "search"; query] stderr) |} ]
        | RunFailed message =>
            Some [ {| content_type := "text"; text := JObject (unexpected_error message) |} ]
        end
    end.
Proof.
  unfold call_tool, call_tool_body, getitem, subprocess_run.
  rewrite decide_True by done.
  destruct (arguments !! "query") as [query|]; simpl; [|done].
  destruct (run ["snap"; "search"; query]); simpl; [|done..].
  by destruct (parse_snap_search stdout).
Qed.

Lemma call_tool_info run arguments :
  call_tool run "snap_info" arguments
  = match arguments !! "package_name" with
    | None => Some [ {| content_type := "text";
                        text := JObject (unexpected_error (str_key_error "package_name")) |} ]
    | Some package_name =>
        match run ["snap"; "info"; package_name] with
        | Completed stdout =>
            match parse_snap_info stdout with
            | Ok info_dict => Some [ {| content_type := "text"; text := JInfo info_dict |} ]
            | Raise e => Some [ {| content_type := "text";
                                   text := JObject (unexpected_error (str_pyexn e)) |} ]
            end
        | ExitNonZero stderr =>
            Some [ {| content_type := "text";
                      text := JObject (command_failed ["snap"; "info"; package_name] stderr) |} ]
        | RunFailed message =>
            Some [ {| content_type := "text"; text := JObject (unexpected_error message) |} ]
        end
    end.
Proof.
  unfold call_tool, call_tool_body, getitem, subprocess_run.
  rewrite decide_False, decide_True by done.
  destruct (arguments !! "package_name") as [package_name|]; simpl; [|done].
  destruct (run ["snap"; "info"; package_name]); simpl; [|done..].
  by destruct (parse_snap_info stdout).
Qed.

Lemma call_tool_unknown run name arguments :
  name ≠ "search_snaps" → name ≠ "snap_info" → call_tool run name arguments = None.
Proof.
  intros H1 H2. unfold call_tool, call_tool_body.
  by rewrite !decide_False.
Qed.

(** X7. [call_tool] answers exactly the tools that [list_tools] declares.
    For a declared name it returns one content of type text, whatever the
    arguments and the outcome of the command. For any other name it runs
    nothing and returns [None]. *)
Theorem call_tool_answers_listed_tools run name arguments :
  (name ∈ map tool_name list_tools →
   ∃ v, call_tool run name arguments
        = Some [ {| content_type := "text"; text := v |} ]) ∧
  (name ∉ map tool_name list_tools → call_tool run name arguments = None).
Proof.
  rewrite tool_names. split.
  - intros [->|[->|[]%elem_of_nil]%elem_of_cons]%elem_of_cons.
    + rewrite call_tool_search.
      destruct (arguments !! "query") as [q|]; [|by eexists].
      destruct (run ["snap"; "search"; q]); [|by eexists..].
      destruct (parse_snap_search stdout); by eexists.
    + rewrite call_tool_info.
      destruct (arguments !! "package_name") as [q|]; [|by eexists].
      destruct (run ["snap"; "info"; q]); [|by eexists..].
      destruct (parse_snap_info stdout); by eexists.
  - intros Hname. apply call_tool_unknown; intros ->; apply Hname.
    + by left.
    + by right; left.
Qed.

Lemma call_tool_answers_listed_tools_witness :
  (∃ v, call_tool (λ _, RunFailed "no snap") "snap_info" ∅
        = Some [ {| content_type := "text"; text := v |} ]) ∧
  call_tool (λ _, Completed search_example) "install_snap" {[ "query" := "vlc" ]}
  = None.
Proof.
  split.
  - apply (proj1 (call_tool_answers_listed_tools (λ _, RunFailed "no snap")
                    "snap_info" ∅)).
    by right; left.
  - apply (proj2 (call_tool_answers_listed_tools (λ _, Completed search_example)
                    "install_snap" {[ "query" := "vlc" ]})).
    intros [[=]|[[=]|[]%elem_of_nil]%elem_of_cons]%elem_of_cons.
Defined.

(** X8. When an argument that the input schema of a declared tool requires
    is missing, [call_tool] runs no command: whatever the environment, the
    answer is the unexpected-error message whose details are the name of
    the key between quotes. *)
Theorem call_tool_missing_argument run (t : Tool) (key : string) arguments :
  t ∈ list_tools → key ∈ required (inputSchema t) → arguments !! key = None →
  call_tool run (tool_name t) arguments
  = Some [ {| content_type := "text";
              text := JObject [ ("error", "Unexpected error");
                                ("details", "'" +:+ key +:+ "'");
                                ("suggestion", "Please report this issue on GitHub") ] |} ].
Proof.
  intros [->|[->|[]%elem_of_nil]%elem_of_cons]%elem_of_cons; simpl.
  - intros [->|[]%elem_of_nil]%elem_of_cons Hkey.
    by rewrite call_tool_search, Hkey.
  - intros [->|[]%elem_of_nil]%elem_of_cons Hkey.
    by rewrite call_tool_info, Hkey.
Qed.

Lemma call_tool_missing_argument_witness :
  call_tool (λ _, Completed search_example) "search_snaps" {[ "q" := "vlc" ]}
  = Some [ {| content_type := "text";
              text := JObject [ ("error", "Unexpected error");
                                ("details", "'query'");
                                ("suggestion", "Please report this issue on GitHub") ] |} ].
Proof.
  apply (call_tool_missing_argument (λ _, Completed search_example)
           search_snaps_tool "query" {[ "q" := "vlc" ]}).
  - by left.
  - by left.
  - vm_compute. reflexivity.
Defined.

(** X9. When the argument is there and the command returns, the answer is
    the result of the parser on the standard output, and never an error
    message: [snap search] with the query as its one argument for
    [search_snaps], [snap info] with the package name for [snap_info]. *)
Theorem call_tool_success run arguments (arg stdout : string) :
  (arguments !! "query" = Some arg →
   run ["snap"; "search"; arg] = Completed stdout →
   ∃ packages,
     parse_snap_search stdout = Ok packages ∧
     call_tool run "search_snaps" arguments
     = Some [ {| content_type := "text"; text := JPackages packages |} ]) ∧
  (arguments !! "package_name" = Some arg →
   run ["snap"; "info"; arg] = Completed stdout →
   ∃ info_dict,
     parse_snap_info stdout = Ok info_dict ∧
     call_tool run "snap_info" arguments
     = Some [ {| content_type := "text"; text := JInfo info_dict |} ]).
Proof.
  split; intros Harg Hrun.
  - destruct (parse_snap_search_records stdout) as (packages & Hparse & _).
    exists packages. split; [done|].
    by rewrite call_tool_search, Harg, Hrun, Hparse.
  - destruct (parse_info_lines_total (Py.split Py.newline (Py.strip stdout)))
      as (info_dict & Hparse).
    exists info_dict. split; [done|].
    rewrite call_tool_info, Harg, Hrun. unfold parse_snap_info. by rewrite Hparse.
Qed.

Lemma call_tool_success_witness :
  (∃ packages,
     parse_snap_search search_example = Ok packages ∧
     call_tool (λ _, Completed search_example) "search_snaps" {[ "query" := "web browser" ]}
     = Some [ {| content_type := "text"; text := JPackages packages |} ]) ∧
  (∃ info_dict,
     parse_snap_info "name: firefox" = Ok info_dict ∧
     call_tool (λ _, Completed "name: firefox") "snap_info" {[ "package_name" := "firefox" ]}
     = Some [ {| content_type := "text"; text := JInfo info_dict |} ]).
Proof.
  split.
  - apply (proj1 (call_tool_success (λ _, Completed search_example)
                    {[ "query" := "web browser" ]} "web browser" search_example)).
    + vm_compute. reflexivity.
    + reflexivity.
  - apply (proj2 (call_tool_success (λ _, Completed "name: firefox")
                    {[ "package_name" := "firefox" ]} "firefox" "name: firefox")).
    + vm_compute. reflexivity.
    + reflexivity.
Defined.

(** X10. When [subprocess.run] raises [CalledProcessError] for the command
    of a declared tool, the answer is the command-failed message: its
    command is the three words of the command line joined by spaces, and its
    stderr is the standard error carried by the exception, trimmed. The
    fallback text stands in only for a standard error that is missing or
    empty: one made of whitespace alone gives an empty stderr. *)
Theorem call_tool_command_failed run arguments
    (name key sub arg : string) (stderr : option string) :
  (name, key, sub) ∈ [ ("search_snaps", "query", "search");
                       ("snap_info", "package_name", "info") ] →
  arguments !! key = Some arg →
  run ["snap"; sub; arg] = ExitNonZero stderr →
  ∃ details,
    call_tool run name arguments
    = Some [ {| content_type := "text";
                text := JObject
                  [ ("error", "Command failed");
                    ("command", "snap " +:+ sub +:+ " " +:+ arg);
                    ("stderr", details);
                    ("suggestion", "Check if the package name is correct. Try using 'search_snaps' first.") ] |} ] ∧
    (stderr = None ∨ stderr = Some EmptyString →
     details = "No error details available") ∧
    (∀ s, stderr = Some s → s ≠ EmptyString → details = Py.strip s) ∧
    (∀ s, stderr = Some s → s ≠ EmptyString → blank s = true →
     details = EmptyString).
Proof.
  intros Htool Harg Hrun.
  exists (match stderr with
          | Some s => if Py.truthy stderr then Py.strip s
                      else "No error details available"
          | None => "No error details available"
          end).
  split; [|split; [|split]].
  - apply elem_of_cons in Htool as [[= -> -> ->]|Htool].
    { by rewrite call_tool_search, Harg, Hrun. }
    apply elem_of_cons in Htool as [[= -> -> ->]|[]%elem_of_nil].
    by rewrite call_tool_info, Harg, Hrun.
  - by intros [->| ->].
  - intros s -> Hs. by destruct s.
  - intros s -> Hs Hb. destruct s; [done|]. by apply strip_blank.
Qed.

Lemma call_tool_command_failed_witness :
  ∃ details,
    call_tool (λ _, ExitNonZero (Some (" " +:+ NL))) "snap_info"
              {[ "package_name" := "no-such-snap" ]}
    = Some [ {| content_type := "text";
                text := JObject
                  [ ("error", "Command failed");
                    ("command", "snap info no-such-snap");
                    ("stderr", details);
                    ("suggestion", "Check if the package name is correct. Try using 'search_snaps' first.") ] |} ] ∧
    (Some (" " +:+ NL) = None ∨ Some (" " +:+ NL) = Some EmptyString →
     details = "No error details available") ∧
    (∀ s, Some (" " +:+ NL) = Some s → s ≠ EmptyString → details = Py.strip s) ∧
    (∀ s, Some (" " +:+ NL) = Some s → s ≠ EmptyString → blank s = true →
     details = EmptyString).
Proof.
  apply (call_tool_command_failed (λ _, ExitNonZero (Some (" " +:+ NL)))
           {[ "package_name" := "no-such-snap" ]}
           "snap_info" "package_name" "info" "no-such-snap" (Some (" " +:+ NL))).
  - by right; left.
  - vm_compute. reflexivity.
  - reflexivity.
Defined.

(** X11. [call_tool] runs one command at most, and the command is made of
    three words: [snap search] and the query for [search_snaps], [snap info]
    and the package name for [snap_info], the argument being one word of the
    command as it was given. It runs none for an unknown tool or a missing
    argument. This is read on the [try] block with its calls of
    [subprocess.run] written down, whose outcome is that of the [try] block
    of [call_tool]. *)
Theorem call_tool_commands run name arguments :
  outcome (call_tool_body_logged run name arguments)
  = call_tool_body run name arguments ∧
  length (commands (call_tool_body_logged run name arguments)) ≤ 1 ∧
  ∀ cmd, cmd ∈ commands (call_tool_body_logged run name arguments)
         ↔ (name = "search_snaps" ∧
            ∃ query, arguments !! "query" = Some query ∧
                     cmd = ["snap"; "search"; query]) ∨
           (name = "snap_info" ∧
            ∃ package_name, arguments !! "package_name" = Some package_name ∧
                            cmd = ["snap"; "info"; package_name]).
Proof.
  unfold call_tool_body_logged, call_tool_body, getitem, subprocess_run_logged,
    subprocess_run, silent.
  destruct (decide (name = "search_snaps")) as [->|Hs].
  { destruct (arguments !! "query") as [q|] eqn:Hq; simpl.
    - assert (Hcmds :
                length [["snap"; "search"; q]] ≤ 1 ∧
                ∀ cmd, cmd ∈ [["snap"; "search"; q]]
                  ↔ ("search_snaps" = "search_snaps" ∧
                     ∃ query, Some q = Some query ∧ cmd = ["snap"; "search"; query]) ∨
                    ("search_snaps" = "snap_info" ∧
                     ∃ package_name, arguments !! "package_name" = Some package_name ∧
                                     cmd = ["snap"; "info"; package_name])).
      { split; [simpl; lia|]. intros cmd.
        rewrite list_elem_of_singleton. split.
        - intros ->. left. split; [done|]. by exists q.
        - intros [[_ (q' & [= <-] & ->)]|[[=] _]]. done. }
      destruct (run ["snap"; "search"; q]); simpl;
        [destruct (parse_snap_search stdout); simpl|..];
        (split; [done | exact Hcmds]).
    - split; [done|]. split; [lia|]. intros cmd. split.
      + by intros ?%elem_of_nil.
      + intros [[_ (q' & [=] & _)]|[[=] _]]. }
  destruct (decide (name = "snap_info")) as [->|Hi].
  { destruct (arguments !! "package_name") as [q|] eqn:Hq; simpl.
    - assert (Hcmds :
                length [["snap"; "info"; q]] ≤ 1 ∧
                ∀ cmd, cmd ∈ [["snap"; "info"; q]]
                  ↔ ("snap_info" = "search_snaps" ∧
                     ∃ query, arguments !! "query" = Some query ∧
                              cmd = ["snap"; "search"; query]) ∨
                    ("snap_info" = "snap_info" ∧
                     ∃ package_name, Some q = Some package_name ∧
                                     cmd = ["snap"; "info"; package_name])).
      { split; [simpl; lia|]. intros cmd.
        rewrite list_elem_of_singleton. split.
        - intros ->. right. split; [done|]. by exists q.
        - intros [[[=] _]|[_ (q' & [= <-] & ->)]]. done. }
      destruct (run ["snap"; "info"; q]); simpl;
        [destruct (parse_snap_info stdout); simpl|..];
        (split; [done | exact Hcmds]).
    - split; [done|]. split; [lia|]. intros cmd. split.
      + by intros ?%elem_of_nil.
      + intros [[[=] _]|[_ (q' & [=] & _)]]. }
  simpl. split; [done|]. split; [lia|]. intros cmd. split.
  - by intros ?%elem_of_nil.
  - intros [[? _]|[? _]]; done.
Qed.

End tools.
